(** * Snowflake key-pair authentication probe: a shallow embedding

    The script [test-key-auth.py] is sequential I/O: it reads [.env], resolves
    four configuration fields, loads a private key, opens one session, runs
    eleven fixed SQL statements and prints a summary.  Its functions are
    embedded here as Rocq functions over an explicit description of the
    outside world (files, standard input, the key decoders, the connector and
    the warehouse), in a small monad that carries the result of a call
    (a value or a raised exception) together with the events it produced
    (lines printed, prompts, connector and cursor calls).

    Text is modelled by [string]: a sequence of characters whose code points
    are below 256.  [os.environ] is a [gmap] from names to values; an
    assignment to it goes through [putenv] and raises where CPython 3.11 on
    Linux raises: on a NUL character in the name or the value, on a [=] in
    the name and on the empty name.  The script catches none of these, so
    such a line of [.env] ends the run while the module is loaded.
    Exceptions are those deriving from [Exception]. *)

From Stdlib Require Import Ascii DecimalString.
From stdpp Require Import base option list strings gmap.

(** ** Python strings *)

Module Py.

(** [c.isspace()] for a character below 256: TAB, LF, VT, FF, CR, the four
    separators FS GS RS US, SPACE, NEL and NBSP. *)
Definition isspace (c : ascii) : bool :=
  let n := nat_of_ascii c in
  ((9 <=? n) && (n <=? 13)) || ((28 <=? n) && (n <=? 32))
  || (n =? 133) || (n =? 160).

Fixpoint lstrip (s : string) : string :=
  match s with
  | String c s' => if isspace c then lstrip s' else s
  | EmptyString => EmptyString
  end.

Fixpoint rstrip (s : string) : string :=
  match s with
  | EmptyString => EmptyString
  | String c s' =>
      match rstrip s' with
      | EmptyString => if isspace c then EmptyString else String c EmptyString
      | r => String c r
      end
  end.

(** [s.strip()] *)
Definition strip (s : string) : string := rstrip (lstrip s).

(** [s.startswith(p)] *)
Fixpoint startswith (p s : string) : bool :=
  match p, s with
  | EmptyString, _ => true
  | String a p', String b s' => if Ascii.eqb a b then startswith p' s' else false
  | String _ _, EmptyString => false
  end.

(** [sub in s] *)
Fixpoint contains (sub s : string) : bool :=
  startswith sub s ||
  match s with
  | EmptyString => false
  | String _ s' => contains sub s'
  end.

(** [s.split(sep, 1)] for a one-character separator: the text before the
    first separator and the text after it, or [s] alone when there is none. *)
Fixpoint split1 (sep : ascii) (s : string) : list string :=
  match s with
  | EmptyString => [EmptyString]
  | String c s' =>
      if Ascii.eqb c sep then [EmptyString; s']
      else match split1 sep s' with
           | hd :: tl => String c hd :: tl
           | [] => [String c EmptyString]
           end
  end.

(** [c.lower()] for a character below 256: A-Z and the accented capitals
    192-222 (without the multiplication sign 215) move up by 32. *)
Definition lower_char (c : ascii) : ascii :=
  let n := nat_of_ascii c in
  if ((65 <=? n) && (n <=? 90))
     || ((192 <=? n) && (n <=? 222) && negb (n =? 215))
  then ascii_of_nat (n + 32) else c.

Fixpoint lower (s : string) : string :=
  match s with
  | EmptyString => EmptyString
  | String c s' => String (lower_char c) (lower s')
  end.

(** Truth value of a string: empty is false. *)
Definition truthy (s : string) : bool :=
  match s with EmptyString => false | String _ _ => true end.

(** Truth value of [os.getenv]'s result: [None] and the empty string are
    false. *)
Definition truthy_opt (o : option string) : bool :=
  match o with Some s => truthy s | None => false end.

(** [str(o)] of a value that is a string or [None]. *)
Definition str_opt (o : option string) : string :=
  match o with Some s => s | None => "None" end.

(** [str(n)] of a non-negative integer. *)
Definition str_nat (n : nat) : string :=
  NilEmpty.string_of_uint (Nat.to_uint n).

(** [sep.join(l)] *)
Fixpoint join (sep : string) (l : list string) : string :=
  match l with
  | [] => EmptyString
  | [x] => x
  | x :: l' => x +:+ sep +:+ join sep l'
  end.

(** [s * n] *)
Fixpoint repeat (s : string) (n : nat) : string :=
  match n with
  | O => EmptyString
  | S n' => s +:+ repeat s n'
  end.

Definition LF : ascii := ascii_of_nat 10.
Definition CR : ascii := ascii_of_nat 13.
Definition NUL : ascii := ascii_of_nat 0.

(** Iterating over a file opened in text mode: the text is cut after each
    line ending, and the endings CR LF and CR are read as LF.  [cur] is the
    part of the current line already seen. *)
Fixpoint readlines_from (cur : string) (s : string) : list string :=
  match s with
  | EmptyString =>
      match cur with EmptyString => [] | _ => [cur] end
  | String c s' =>
      if Ascii.eqb c LF then
        (cur +:+ String LF EmptyString) :: readlines_from EmptyString s'
      else if Ascii.eqb c CR then
        match s' with
        | String c' s'' =>
            if Ascii.eqb c' LF then
              (cur +:+ String LF EmptyString) :: readlines_from EmptyString s''
            else
              (cur +:+ String LF EmptyString) :: readlines_from EmptyString s'
        | EmptyString => [cur +:+ String LF EmptyString]
        end
      else readlines_from (cur +:+ String c EmptyString) s'
  end.

Definition readlines (s : string) : list string := readlines_from EmptyString s.

End Py.

(** ** Exceptions, events and the monad of a call *)

(** The classes the script's handlers tell apart.  Every exception modelled
    derives from [Exception]. *)
Inductive exn_class := ValueError | FileNotFoundError | OtherError.

Record exn := Exn {
  exn_class_of : exn_class;
  exn_name : string;      (* type(e).__name__ *)
  exn_msg : string        (* str(e) *)
}.

Inductive result (A : Type) :=
| Ret (a : A)
| Raise (e : exn).
Arguments Ret {A} a.
Arguments Raise {A} e.

Inductive key_format := DER | PEM.

(** What a run does to the outside, in order. *)
Inductive event :=
| Print (line : string)          (* print(line) *)
| Prompt (text : string)         (* input(text) shows [text] *)
| ReadFile (path : string)       (* open(path, 'rb') and read() *)
| Decode (f : key_format)        (* a call of one of the two key decoders *)
| Connect (opened : bool)        (* snowflake.connector.connect(...) *)
| OpenCursor (opened : bool)     (* conn.cursor() *)
| Execute (sql : string)         (* cursor.execute(sql) *)
| CloseCursor                    (* cursor.close() *)
| CloseConn.                     (* conn.close() *)

Definition M (A : Type) : Type := (result A * list event)%type.

Definition ret {A} (a : A) : M A := (Ret a, []).

Definition raise {A} (e : exn) : M A := (Raise e, []).

Definition bind {A B} (m : M A) (f : A → M B) : M B :=
  match m with
  | (Ret a, t) => let '(r, t') := f a in (r, t ++ t')
  | (Raise e, t) => (Raise e, t)
  end.

(** [try: m except Exception as e: h e] *)
Definition try_except {A} (m : M A) (h : exn → M A) : M A :=
  match m with
  | (Ret a, t) => (Ret a, t)
  | (Raise e, t) => let '(r, t') := h e in (r, t ++ t')
  end.

Definition emit (ev : event) : M unit := (Ret tt, [ev]).

Definition print (line : string) : M unit := emit (Print line).

Definition lift {A} (r : result A) : M A := (r, []).

Global Instance M_ret : MRet M := @ret.
Global Instance M_bind : MBind M := λ A B f m, bind m f.

Definition events {A} (m : M A) : list event := snd m.
Definition outcome {A} (m : M A) : result A := fst m.

(** ** The environment loader *)

Definition env_file : string := ".env".

(** [os.environ[name] = value].  The two strings are encoded and handed to
    [os.putenv]: a NUL character in either is refused with a [ValueError]
    (checked on both before anything else), a [=] in the name with another
    [ValueError], and the empty name by the C library's [setenv] with
    [OSError] (EINVAL).  Only then does the mapping hold the pair; the empty
    value is a value like any other. *)
Definition environ_setitem (environ : gmap string string) (name value : string)
  : M (gmap string string) :=
  if Py.contains (String Py.NUL EmptyString) name
     || Py.contains (String Py.NUL EmptyString) value
  then raise (Exn ValueError "ValueError" "embedded null byte")
  else if Py.contains "=" name
  then raise (Exn ValueError "ValueError" "illegal environment variable name")
  else if negb (Py.truthy name)
  then raise (Exn OtherError "OSError" "[Errno 22] Invalid argument")
  else ret (<[name := value]> environ).

(** One turn of the loop over the lines of [.env]. *)
Definition load_env_line (environ : gmap string string) (line : string)
  : M (gmap string string) :=
  let line := Py.strip line in
  if Py.truthy line && negb (Py.startswith "#" line) && Py.contains "=" line
  then
    match Py.split1 "="%char line with
    | [key; value] => environ_setitem environ (Py.strip key) (Py.strip value)
    | _ =>
        raise (Exn ValueError "ValueError"
                 "not enough values to unpack (expected 2, got 1)")
    end
  else ret environ.

Fixpoint load_env_lines (environ : gmap string string) (lines : list string)
  : M (gmap string string) :=
  match lines with
  | [] => ret environ
  | line :: rest =>
      environ' ← load_env_line environ line;
      load_env_lines environ' rest
  end.

(** [dot_env] is the text of the file [.env], [None] when there is no such
    file.  An exception of the loop is caught nowhere: the closing line is
    then not printed. *)
Definition load_env_file (dot_env : option string) (environ : gmap string string)
  : M (gmap string string) :=
  match dot_env with
  | Some text =>
      print ("Loading environment variables from " +:+ env_file);;
      environ' ← load_env_lines environ (Py.readlines text);
      print "Environment variables loaded";;
      ret environ'
  | None =>
      print "No .env file found, using interactive input or defaults";;
      ret environ
  end.

(** ** The outside world *)

Definition nl : string := String Py.LF EmptyString.

(** The module-level names read from the environment. *)
Record config := Config {
  SNOWFLAKE_ACCOUNT : option string;
  SNOWFLAKE_USER : option string;
  SNOWFLAKE_ROLE : option string;
  SNOWFLAKE_WAREHOUSE : option string;
  SNOWFLAKE_DATABASE : string;
  PRIVATE_KEY_PATH : string;
  PRIVATE_KEY_PASSWORD : option string
}.

(** [os.getenv(name)] and [os.getenv(name, dflt)] *)
Definition getenv (environ : gmap string string) (name : string) : option string :=
  environ !! name.

Definition getenv_default (environ : gmap string string) (name dflt : string) : string :=
  match environ !! name with Some v => v | None => dflt end.

Definition module_config (environ : gmap string string) : config :=
  {| SNOWFLAKE_ACCOUNT := getenv environ "SNOWFLAKE_ACCOUNT";
     SNOWFLAKE_USER := getenv environ "SNOWFLAKE_USER";
     SNOWFLAKE_ROLE := getenv environ "SNOWFLAKE_ROLE";
     SNOWFLAKE_WAREHOUSE := getenv environ "SNOWFLAKE_WAREHOUSE";
     SNOWFLAKE_DATABASE := getenv_default environ "SNOWFLAKE_DATABASE" "SNOWFLAKE";
     PRIVATE_KEY_PATH := getenv_default environ "PRIVATE_KEY_PATH" "rsa_key.p8";
     PRIVATE_KEY_PASSWORD := getenv environ "PRIVATE_KEY_PASSWORD" |}.

(** A path that exists names a file whose bytes can be read, or something
    ([Unreadable]: a directory, a file the process may not read) on which
    [open] raises an [OSError] other than [FileNotFoundError]. *)
Inductive node :=
| Readable (data : list Byte.byte)
| Unreadable (size : nat) (err_name err_msg : string).

(** The decoded key object, opaque to the script. *)
Inductive private_key := PrivateKey (id : N).

(** What [serialization.load_der_private_key] and [load_pem_private_key] do
    with bytes held in memory: a key, a [ValueError] (or a subclass of it), or
    another exception ([TypeError], [UnsupportedAlgorithm], ...).  They never
    touch the file system. *)
Inductive decode_outcome :=
| Decoded (k : private_key)
| DecodeValueError (err_name err_msg : string)
| DecodeOtherError (err_name err_msg : string).

Inductive connection := Connection.
Inductive cursor := Cursor.

Record connect_args := ConnectArgs {
  arg_user : option string;
  arg_account : option string;
  arg_private_key : private_key;
  arg_role : option string;
  arg_warehouse : option string;
  arg_database : string
}.

(** A value of a result row is opaque: the script only prints it, either
    with [str] or with the format [.2f], which raises on values that are not
    numbers. *)
Record cell := Cell {
  cell_str : string;
  cell_2f : result string
}.

Definition row := list cell.

Record world := World {
  dot_env : option string;                      (* text of .env, if present *)
  environ0 : gmap string string;                (* the process environment *)
  stdin : list string;                          (* lines typed, without line ends *)
  fs : string → option node;                    (* the file system, by path *)
  load_der_private_key : list Byte.byte → option string → decode_outcome;
  load_pem_private_key : list Byte.byte → option string → decode_outcome;
  connector : connect_args → result connection;
  conn_cursor : result cursor;
  server : string → result (list row);          (* the answer to a statement:
                                                   the eleven statements differ,
                                                   each is run at most once *)
  started_at : string;                          (* datetime.now(), first call *)
  completed_at : string                         (* datetime.now(), second call *)
}.

(** [input(prompt)] *)
Definition input (prompt : string) (stdin : list string) : M (string * list string) :=
  emit (Prompt prompt);;
  match stdin with
  | l :: rest => ret (l, rest)
  | [] => raise (Exn OtherError "EOFError" "EOF when reading a line")
  end.

(** ** The configuration resolver *)

Definition print_config (g : config) : M unit :=
  print ("   Account: " +:+ Py.str_opt (SNOWFLAKE_ACCOUNT g));;
  print ("   User: " +:+ Py.str_opt (SNOWFLAKE_USER g));;
  print ("   Role: " +:+ Py.str_opt (SNOWFLAKE_ROLE g));;
  print ("   Warehouse: " +:+ Py.str_opt (SNOWFLAKE_WAREHOUSE g)).

(** [if answer: NAME = answer] *)
Definition keep_or_set (old : option string) (answer : string) : option string :=
  if Py.truthy answer then Some answer else old.

(** [not NAME or placeholder in str(NAME)] *)
Definition unset_or_placeholder (placeholder : string) (v : option string) : bool :=
  negb (Py.truthy_opt v) || Py.contains placeholder (Py.str_opt v).

Definition missing_fields (g : config) : list string :=
  (if unset_or_placeholder "your-actual" (SNOWFLAKE_ACCOUNT g) then ["ACCOUNT"] else [])
  ++ (if unset_or_placeholder "your_actual" (SNOWFLAKE_USER g) then ["USER"] else [])
  ++ (if unset_or_placeholder "your_actual" (SNOWFLAKE_ROLE g) then ["ROLE"] else [])
  ++ (if unset_or_placeholder "your_actual" (SNOWFLAKE_WAREHOUSE g) then ["WAREHOUSE"] else []).

(** [all([SNOWFLAKE_ACCOUNT, SNOWFLAKE_USER, SNOWFLAKE_ROLE, SNOWFLAKE_WAREHOUSE])] *)
Definition env_loaded (g : config) : bool :=
  Py.truthy_opt (SNOWFLAKE_ACCOUNT g) && Py.truthy_opt (SNOWFLAKE_USER g)
  && Py.truthy_opt (SNOWFLAKE_ROLE g) && Py.truthy_opt (SNOWFLAKE_WAREHOUSE g).

(** The four assignments [if answer: NAME = answer]. *)
Definition assign_answers (g : config) (account user role warehouse : string) : config :=
  {| SNOWFLAKE_ACCOUNT := keep_or_set (SNOWFLAKE_ACCOUNT g) account;
     SNOWFLAKE_USER := keep_or_set (SNOWFLAKE_USER g) user;
     SNOWFLAKE_ROLE := keep_or_set (SNOWFLAKE_ROLE g) role;
     SNOWFLAKE_WAREHOUSE := keep_or_set (SNOWFLAKE_WAREHOUSE g) warehouse;
     SNOWFLAKE_DATABASE := SNOWFLAKE_DATABASE g;
     PRIVATE_KEY_PATH := PRIVATE_KEY_PATH g;
     PRIVATE_KEY_PASSWORD := PRIVATE_KEY_PASSWORD g |}.

(** The four globals are assigned in place: the call returns the new
    configuration and what is left of standard input with its verdict. *)
Definition get_configuration (g : config) (stdin : list string)
  : M (bool * config * list string) :=
  if env_loaded g then
    print (nl +:+ "✅ Configuration loaded from environment variables:");;
    print_config g;;
    ret (true, g, stdin)
  else
    print (nl +:+ "📋 Please provide your Snowflake connection details:");;
    (if Py.truthy_opt (SNOWFLAKE_ACCOUNT g)
     then print "(Some values loaded from environment)" else ret tt);;
    print ("(Press Enter to keep existing value or skip)" +:+ nl);;
    '(account, stdin) ← input "Account URL (e.g., abc123.snowflakecomputing.com): " stdin;
    let account := Py.strip account in
    '(user, stdin) ← input "Username: " stdin;
    let user := Py.strip user in
    '(role, stdin) ← input "Role (e.g., ACCOUNTADMIN): " stdin;
    let role := Py.strip role in
    '(warehouse, stdin) ← input "Warehouse (e.g., COMPUTE_WH): " stdin;
    let warehouse := Py.strip warehouse in
    let g := assign_answers g account user role warehouse in
    let missing := missing_fields g in
    match missing with
    | _ :: _ =>
        print (nl +:+ "❌ Missing configuration: " +:+ Py.join ", " missing);;
        print "Please update the script or provide values when prompted.";;
        ret (false, g, stdin)
    | [] =>
        print (nl +:+ "✅ Configuration set:");;
        print_config g;;
        ret (true, g, stdin)
    end.

(** ** The key loader *)

(** [os.path.exists(path)] *)
Definition path_exists (w : world) (path : string) : bool :=
  match fs w path with Some _ => true | None => false end.

Definition no_such_file (path : string) : exn :=
  Exn FileNotFoundError "FileNotFoundError"
    ("[Errno 2] No such file or directory: '" +:+ path +:+ "'").

(** [os.path.getsize(path)] *)
Definition getsize (w : world) (path : string) : M nat :=
  match fs w path with
  | Some (Readable data) => ret (length data)
  | Some (Unreadable size _ _) => ret size
  | None => raise (no_such_file path)
  end.

(** [with open(path, 'rb') as f: f.read()] *)
Definition read_bytes (w : world) (path : string) : M (list Byte.byte) :=
  emit (ReadFile path);;
  match fs w path with
  | Some (Readable data) => ret data
  | Some (Unreadable _ err_name err_msg) => raise (Exn OtherError err_name err_msg)
  | None => raise (no_such_file path)
  end.

(** A call of one of the two decoders. *)
Definition decode (w : world) (f : key_format) (key_data : list Byte.byte)
    (password : option string) : M private_key :=
  emit (Decode f);;
  match
    match f with
    | DER => load_der_private_key w key_data password
    | PEM => load_pem_private_key w key_data password
    end
  with
  | Decoded k => ret k
  | DecodeValueError err_name err_msg => raise (Exn ValueError err_name err_msg)
  | DecodeOtherError err_name err_msg => raise (Exn OtherError err_name err_msg)
  end.

(** [try: m except ValueError: h] *)
Definition try_except_ValueError {A} (m : M A) (h : M A) : M A :=
  match m with
  | (Raise (Exn ValueError _ _), t) => let '(r, t') := h in (r, t ++ t')
  | other => other
  end.

Definition load_private_key (w : world) (g : config) : M (option private_key) :=
  let path := PRIVATE_KEY_PATH g in
  print ("Checking for private key file: " +:+ path);;
  if negb (path_exists w path) then
    print ("❌ Key file not found: " +:+ path);;
    print "💡 Make sure rsa_key.p8 is in the same directory as this script";;
    ret None
  else
    file_size ← getsize w path;
    print ("✅ Key file found (" +:+ Py.str_nat file_size +:+ " bytes)");;
    try_except
      (print ("Loading private key from: " +:+ path);;
       key_data ← read_bytes w path;
       private_key ←
         try_except_ValueError
           (decode w DER key_data (PRIVATE_KEY_PASSWORD g))
           (decode w PEM key_data (PRIVATE_KEY_PASSWORD g));
       print "Private key loaded successfully";;
       ret (Some private_key))
      (λ e,
        match exn_class_of e with
        | FileNotFoundError =>
            print ("Key file not found: " +:+ path);;
            print "Please update PRIVATE_KEY_PATH with your actual key file path";;
            ret None
        | ValueError =>
            (if Py.contains "password" (Py.lower (exn_msg e)) then
               print "Key requires password but none provided";;
               print "Update PRIVATE_KEY_PASSWORD with your key password"
             else
               print ("Invalid key format: " +:+ exn_msg e));;
            ret None
        | OtherError =>
            print ("Error loading key: " +:+ exn_msg e);;
            ret None
        end).

(** ** The connector *)

Definition connect (w : world) (args : connect_args) : M connection :=
  let r := connector w args in
  emit (Connect (match r with Ret _ => true | Raise _ => false end));;
  lift r.

Definition test_connection (w : world) (g : config) (private_key : private_key)
  : M (option connection) :=
  try_except
    (print (nl +:+ "Testing connection to Snowflake...");;
     print ("Account: " +:+ Py.str_opt (SNOWFLAKE_ACCOUNT g));;
     print ("User: " +:+ Py.str_opt (SNOWFLAKE_USER g));;
     print ("Role: " +:+ Py.str_opt (SNOWFLAKE_ROLE g));;
     print ("Warehouse: " +:+ Py.str_opt (SNOWFLAKE_WAREHOUSE g));;
     conn ← connect w
       {| arg_user := SNOWFLAKE_USER g;
          arg_account := SNOWFLAKE_ACCOUNT g;
          arg_private_key := private_key;
          arg_role := SNOWFLAKE_ROLE g;
          arg_warehouse := SNOWFLAKE_WAREHOUSE g;
          arg_database := SNOWFLAKE_DATABASE g |};
     print "Connection established successfully";;
     ret (Some conn))
    (λ e,
      print ("Connection failed: " +:+ exn_msg e);;
      print ("Error type: " +:+ exn_name e);;
      print (nl +:+ "Troubleshooting tips:");;
      print "1. Verify SNOWFLAKE_ACCOUNT URL format";;
      print "2. Check SNOWFLAKE_USER exists and has proper permissions";;
      print "3. Ensure SNOWFLAKE_ROLE has necessary privileges";;
      print "4. Confirm private key is associated with the user in Snowflake";;
      print "5. Check if key needs a password (update PRIVATE_KEY_PASSWORD)";;
      ret None).

(** ** The query runner *)


Definition sql_identity : string :=
  "SELECT CURRENT_VERSION(), CURRENT_USER(), CURRENT_ROLE(), CURRENT_WAREHOUSE()".


Definition sql_query_history : string :=
  "
            SELECT COUNT(*) as query_count
            FROM SNOWFLAKE.ACCOUNT_USAGE.QUERY_HISTORY 
            WHERE START_TIME >= DATEADD(hour, -24, CURRENT_TIMESTAMP())
        ".


Definition sql_warehouse_load : string :=
  "
            SELECT WAREHOUSE_NAME, 
                   AVG(AVG_RUNNING) as avg_cpu_usage,
                   COUNT(*) as records
            FROM SNOWFLAKE.ACCOUNT_USAGE.WAREHOUSE_LOAD_HISTORY 
            WHERE START_TIME >= DATEADD(hour, -24, CURRENT_TIMESTAMP())
            GROUP BY WAREHOUSE_NAME
            LIMIT 5
        ".


Definition sql_storage : string :=
  "
            SELECT 
                USAGE_DATE,
                STORAGE_BYTES/1024/1024/1024 as storage_gb,
                STAGE_BYTES/1024/1024/1024 as stage_gb,
                FAILSAFE_BYTES/1024/1024/1024 as failsafe_gb
            FROM SNOWFLAKE.ACCOUNT_USAGE.STORAGE_USAGE 
            WHERE USAGE_DATE >= DATEADD(day, -7, CURRENT_DATE())
            ORDER BY USAGE_DATE DESC
            LIMIT 3
        ".


Definition sql_credits : string :=
  "
            SELECT WAREHOUSE_NAME,
                   SUM(CREDITS_USED) as total_credits,
                   COUNT(*) as records
            FROM SNOWFLAKE.ACCOUNT_USAGE.WAREHOUSE_METERING_HISTORY 
            WHERE START_TIME >= DATEADD(day, -7, CURRENT_TIMESTAMP())
            GROUP BY WAREHOUSE_NAME
            ORDER BY total_credits DESC
            LIMIT 5
        ".


Definition sql_query_perf : string :=
  "
            SELECT 
                QUERY_TYPE,
                COUNT(*) as query_count,
                AVG(EXECUTION_TIME/1000) as avg_exec_seconds,
                MAX(EXECUTION_TIME/1000) as max_exec_seconds
            FROM SNOWFLAKE.ACCOUNT_USAGE.QUERY_HISTORY 
            WHERE START_TIME >= DATEADD(hour, -24, CURRENT_TIMESTAMP())
            AND EXECUTION_TIME IS NOT NULL
            GROUP BY QUERY_TYPE
            ORDER BY query_count DESC
            LIMIT 5
        ".

(** An entry of [requirements_tests]. *)
Record test := Test { name : string; query : string }.

Definition requirements_tests : list test :=
  [
    {| name := "1.A - CPU & Memory Utilization";
       query := "
                    SELECT 'CPU_Memory_Test' as test_name, COUNT(*) as available_records
                    FROM SNOWFLAKE.ACCOUNT_USAGE.WAREHOUSE_LOAD_HISTORY 
                    WHERE START_TIME >= DATEADD(day, -1, CURRENT_TIMESTAMP())
                " |};
    {| name := "1.B - Storage Utilization";
       query := "
                    SELECT 'Storage_Test' as test_name, COUNT(*) as available_records
                    FROM SNOWFLAKE.ACCOUNT_USAGE.STORAGE_USAGE 
                    WHERE USAGE_DATE >= DATEADD(day, -30, CURRENT_DATE())
                " |};
    {| name := "1.C - Query Execution Time";
       query := "
                    SELECT 'Query_Performance_Test' as test_name, COUNT(*) as available_records
                    FROM SNOWFLAKE.ACCOUNT_USAGE.QUERY_HISTORY 
                    WHERE START_TIME >= DATEADD(day, -1, CURRENT_TIMESTAMP())
                " |};
    {| name := "2.A - Data Loading Rate";
       query := "
                    SELECT 'Data_Loading_Test' as test_name, COUNT(*) as available_records
                    FROM SNOWFLAKE.ACCOUNT_USAGE.COPY_HISTORY 
                    WHERE LAST_LOAD_TIME >= DATEADD(day, -7, CURRENT_TIMESTAMP())
                " |};
    {| name := "2.B - Warehouse Usage";
       query := "
                    SELECT 'Warehouse_Usage_Test' as test_name, COUNT(*) as available_records
                    FROM SNOWFLAKE.ACCOUNT_USAGE.WAREHOUSE_METERING_HISTORY 
                    WHERE START_TIME >= DATEADD(day, -7, CURRENT_TIMESTAMP())
                " |}
  ].

(** [conn.cursor()] *)
Definition open_cursor (w : world) (conn : connection) : M cursor :=
  let r := conn_cursor w in
  emit (OpenCursor (match r with Ret _ => true | Raise _ => false end));;
  lift r.

(** [cursor.execute(sql)]: the rows of the answer are what [fetchone] and
    [fetchall] then read. *)
Definition execute (w : world) (c : cursor) (sql : string) : M (list row) :=
  emit (Execute sql);;
  lift (server w sql).

Definition fetchone (rows : list row) : option row := head rows.
Definition fetchall (rows : list row) : list row := rows.

(** [r[i]] on a row *)
Definition row_item (r : row) (i : nat) : M cell :=
  match r !! i with
  | Some c => ret c
  | None => raise (Exn OtherError "IndexError" "tuple index out of range")
  end.

(** [r[i]] on what [fetchone] returned *)
Definition item (r : option row) (i : nat) : M cell :=
  match r with
  | Some cells => row_item cells i
  | None => raise (Exn OtherError "TypeError" "'NoneType' object is not subscriptable")
  end.

(** [f"{c:.2f}"] *)
Definition format_2f (c : cell) : M string := lift (cell_2f c).

(** [for x in l: body x] *)
Fixpoint for_each {A} (l : list A) (body : A → M unit) : M unit :=
  match l with
  | [] => ret tt
  | x :: rest => body x;; for_each rest body
  end.

Definition test_basic_queries (w : world) (conn : connection) : M (option cursor) :=
  try_except
    (print (nl +:+ "Testing basic queries...");;
     cursor ← open_cursor w conn;
     rows ← execute w cursor sql_identity;
     let result := fetchone rows in
     v ← item result 0;
     print ("Snowflake Version: " +:+ cell_str v);;
     v ← item result 1;
     print ("Current User: " +:+ cell_str v);;
     v ← item result 2;
     print ("Current Role: " +:+ cell_str v);;
     v ← item result 3;
     print ("Current Warehouse: " +:+ cell_str v);;
     ret (Some cursor))
    (λ e,
      print ("Basic queries failed: " +:+ exn_msg e);;
      ret None).

Definition test_monitoring_access (w : world) (cursor : cursor) : M bool :=
  try_except
    (print (nl +:+ "Testing monitoring access (Account Usage views)...");;
     print "Testing query history access...";;
     rows ← execute w cursor sql_query_history;
     query_count ← item (fetchone rows) 0;
     print ("Queries in last 24h: " +:+ cell_str query_count);;
     print "Testing warehouse performance metrics...";;
     rows ← execute w cursor sql_warehouse_load;
     let warehouses := fetchall rows in
     match warehouses with
     | _ :: _ =>
         print ("Found " +:+ Py.str_nat (length warehouses)
                +:+ " warehouses with performance data:");;
         for_each warehouses (λ wh,
           c0 ← row_item wh 0;
           c1 ← row_item wh 1;
           s1 ← format_2f c1;
           c2 ← row_item wh 2;
           print ("         - " +:+ cell_str c0 +:+ ": Avg CPU " +:+ s1
                  +:+ "%, " +:+ cell_str c2 +:+ " records"))
     | [] =>
         print " No warehouse performance data (may need time to accumulate)"
     end;;
     print "Testing storage metrics...";;
     rows ← execute w cursor sql_storage;
     let storage_data := fetchall rows in
     match storage_data with
     | _ :: _ =>
         print ("Found storage data for " +:+ Py.str_nat (length storage_data)
                +:+ " days:");;
         for_each storage_data (λ day,
           c0 ← row_item day 0;
           c1 ← row_item day 1;
           s1 ← format_2f c1;
           c2 ← row_item day 2;
           s2 ← format_2f c2;
           c3 ← row_item day 3;
           s3 ← format_2f c3;
           print ("- " +:+ cell_str c0 +:+ ": " +:+ s1 +:+ "GB total, " +:+ s2
                  +:+ "GB stage, " +:+ s3 +:+ "GB failsafe"))
     | [] => ret tt
     end;;
     print "Testing warehouse credit usage...";;
     rows ← execute w cursor sql_credits;
     let credits := fetchall rows in
     match credits with
     | _ :: _ =>
         print ("Found credit usage for " +:+ Py.str_nat (length credits)
                +:+ " warehouses:");;
         for_each credits (λ wh,
           c0 ← row_item wh 0;
           c1 ← row_item wh 1;
           s1 ← format_2f c1;
           c2 ← row_item wh 2;
           print ("- " +:+ cell_str c0 +:+ ": " +:+ s1 +:+ " credits ("
                  +:+ cell_str c2 +:+ " records)"))
     | [] => ret tt
     end;;
     print "Testing query execution metrics...";;
     rows ← execute w cursor sql_query_perf;
     let perf_data := fetchall rows in
     match perf_data with
     | _ :: _ =>
         print "Query performance data by type:";;
         for_each perf_data (λ row,
           c0 ← row_item row 0;
           c1 ← row_item row 1;
           c2 ← row_item row 2;
           s2 ← format_2f c2;
           c3 ← row_item row 3;
           s3 ← format_2f c3;
           print ("- " +:+ cell_str c0 +:+ ": " +:+ cell_str c1 +:+ " queries, avg "
                  +:+ s2 +:+ "s, max " +:+ s3 +:+ "s"))
     | [] => ret tt
     end;;
     ret true)
    (λ e,
      print ("Monitoring access test failed: " +:+ exn_msg e);;
      print "This may indicate insufficient permissions for DATADOG_ROLE";;
      print "Ensure role has IMPORTED PRIVILEGES on SNOWFLAKE database";;
      ret false).

(** One turn of the loop over [requirements_tests]: the new value of
    [all_passed]. *)
Definition requirement_step (w : world) (cursor : cursor) (all_passed : bool)
    (test : test) : M bool :=
  try_except
    (rows ← execute w cursor (query test);
     let result := fetchone rows in
     v ← item result 1;
     print (name test +:+ ": " +:+ cell_str v +:+ " records available");;
     ret all_passed)
    (λ e,
      print (name test +:+ ": Failed - " +:+ exn_msg e);;
      ret false).

Fixpoint requirements_loop (w : world) (cursor : cursor) (all_passed : bool)
    (tests : list test) : M bool :=
  match tests with
  | [] => ret all_passed
  | test :: rest =>
      all_passed ← requirement_step w cursor all_passed test;
      requirements_loop w cursor all_passed rest
  end.

Definition test_datadog_requirements (w : world) (cursor : cursor) : M bool :=
  try_except
    (print (nl +:+ "Testing specific Datadog monitoring requirements...");;
     requirements_loop w cursor true requirements_tests)
    (λ e,
      print ("Requirements testing failed: " +:+ exn_msg e);;
      ret false).

(** ** The reporter *)

Definition rule : string := Py.repeat "=" 70.

Definition main (w : world) (g : config) : M (bool * config) :=
  print rule;;
  print "SNOWFLAKE PRIVATE LINK KEY AUTHENTICATION TEST";;
  print rule;;
  print ("Test started at: " +:+ started_at w);;
  '(configured, g, _) ← get_configuration g (stdin w);
  if negb configured then ret (false, g) else
  print "";;
  private_key ← load_private_key w g;
  match private_key with
  | None =>
      print (nl +:+ "Cannot proceed without valid private key");;
      ret (false, g)
  | Some private_key =>
  conn ← test_connection w g private_key;
  match conn with
  | None =>
      print (nl +:+ "Cannot proceed without valid connection");;
      ret (false, g)
  | Some conn =>
  cursor ← test_basic_queries w conn;
  match cursor with
  | None =>
      print (nl +:+ "Cannot proceed without basic query access");;
      emit CloseConn;;
      ret (false, g)
  | Some cursor =>
  monitoring_ok ← test_monitoring_access w cursor;
  requirements_ok ← test_datadog_requirements w cursor;
  emit CloseCursor;;
  emit CloseConn;;
  print (nl +:+ rule);;
  print "TEST RESULTS SUMMARY";;
  print rule;;
  if monitoring_ok && requirements_ok then
    print "ALL TESTS PASSED";;
    print "Private key authentication working";;
    print "Private Link connection established";;
    print "All monitoring requirements satisfied";;
    print "Ready to configure Datadog integration";;
    print (nl +:+ "NEXT STEPS:");;
    print "1. Configure Datadog Snowflake integration with:";;
    print ("   - Account URL: " +:+ Py.str_opt (SNOWFLAKE_ACCOUNT g));;
    print ("   - Username: " +:+ Py.str_opt (SNOWFLAKE_USER g));;
    print "   - Authentication: Private Key";;
    print ("   - Role: " +:+ Py.str_opt (SNOWFLAKE_ROLE g));;
    print ("   - Warehouse: " +:+ Py.str_opt (SNOWFLAKE_WAREHOUSE g));;
    print "2. Enable all metric collection categories";;
    print "3. Create monitoring dashboard";;
    ret (true, g)
  else
    print "SOME TESTS FAILED";;
    print "Check error messages above for troubleshooting";;
    ret (false, g)
  end end end.

(** The script from its first statement to [sys.exit]: the environment
    loader, the module-level configuration, [main] and the closing line.
    When the loader raises, the module is not loaded any further and [main]
    is not called. *)
Definition script (w : world) : M bool :=
  environ ← load_env_file (dot_env w) (environ0 w);
  '(success, _) ← main w (module_config environ);
  print (nl +:+ "Test completed at: " +:+ completed_at w);;
  ret success.

(** [sys.exit(0 if success else 1)]; an exception nobody catches ends the
    interpreter with status 1. *)
Definition exit_status (w : world) : Z :=
  match outcome (script w) with
  | Ret true => 0
  | Ret false => 1
  | Raise _ => 1
  end.

(** ** Sample worlds *)

Module Sample.

Definition num (s s2 : string) : cell := Cell s (Ret s2).
Definition txt (s : string) : cell :=
  Cell s (Raise (Exn ValueError "ValueError"
                   "Unknown format code 'f' for object of type 'str'")).

Definition environ : gmap string string :=
  <["SNOWFLAKE_ACCOUNT" := "abc123.snowflakecomputing.com"]>
  (<["SNOWFLAKE_USER" := "DATADOG"]>
  (<["SNOWFLAKE_ROLE" := "DATADOG_ROLE"]>
  (<["SNOWFLAKE_WAREHOUSE" := "COMPUTE_WH"]> ∅))).

(** Every statement answers one row of four numbers. *)
Definition good_server (sql : string) : result (list row) :=
  Ret [[txt "X"; num "7" "7.00"; num "3" "3.00"; num "1" "1.00"]].

Definition denied : exn :=
  Exn OtherError "ProgrammingError" "SQL access control error".

Definition good : world :=
  {| dot_env := None;
     environ0 := environ;
     stdin := [];
     fs := λ path, if String.eqb path "rsa_key.p8"
                   then Some (Readable [Byte.x30; Byte.x82]) else None;
     load_der_private_key := λ _ _, Decoded (PrivateKey 1);
     load_pem_private_key := λ _ _, DecodeValueError "ValueError" "Unable to load PEM file";
     connector := λ _, Ret Connection;
     conn_cursor := Ret Cursor;
     server := good_server;
     started_at := "2025-01-01 00:00:00";
     completed_at := "2025-01-01 00:00:05" |}.

Definition with_server (srv : string → result (list row)) : world :=
  {| dot_env := dot_env good; environ0 := environ0 good; stdin := stdin good;
     fs := fs good;
     load_der_private_key := load_der_private_key good;
     load_pem_private_key := load_pem_private_key good;
     connector := connector good; conn_cursor := conn_cursor good;
     server := srv;
     started_at := started_at good; completed_at := completed_at good |}.

Definition with_fs (f : string → option node) : world :=
  {| dot_env := dot_env good; environ0 := environ0 good; stdin := stdin good;
     fs := f;
     load_der_private_key := load_der_private_key good;
     load_pem_private_key := load_pem_private_key good;
     connector := connector good; conn_cursor := conn_cursor good;
     server := server good;
     started_at := started_at good; completed_at := completed_at good |}.

Definition with_decoders (der pem : list Byte.byte → option string → decode_outcome)
  : world :=
  {| dot_env := dot_env good; environ0 := environ0 good; stdin := stdin good;
     fs := fs good;
     load_der_private_key := der;
     load_pem_private_key := pem;
     connector := connector good; conn_cursor := conn_cursor good;
     server := server good;
     started_at := started_at good; completed_at := completed_at good |}.

(** An encrypted PEM key read with a wrong password. *)
Definition wrong_password : world :=
  with_decoders
    (λ _ _, DecodeValueError "ValueError" "Could not deserialize key data.")
    (λ _ _, DecodeValueError "ValueError" "Bad decrypt. Incorrect password?").

(** The role may not read the query history. *)
Definition history_denied : world :=
  with_server (λ sql, if String.eqb sql sql_query_history
                      then Raise denied else good_server sql).

(** The role may not read the copy history, which probe 2.A counts. *)
Definition copy_history_denied : world :=
  with_server (λ sql, if Py.contains "COPY_HISTORY" sql
                      then Raise denied else good_server sql).

(** The configuration the module reads from the sample environment. *)
Definition config : config := module_config environ.

Definition with_dot_env (text : string) : world :=
  {| dot_env := Some text; environ0 := environ0 good; stdin := stdin good;
     fs := fs good;
     load_der_private_key := load_der_private_key good;
     load_pem_private_key := load_pem_private_key good;
     connector := connector good; conn_cursor := conn_cursor good;
     server := server good;
     started_at := started_at good; completed_at := completed_at good |}.

(** A file [.env] whose second line has an empty name. *)
Definition empty_name : world :=
  with_dot_env ("SNOWFLAKE_ROLE=R1" +:+ nl +:+ " = x" +:+ nl +:+ "SNOWFLAKE_USER=U").

End Sample.

(** * Terms of the statements *)

(** ** Text *)

(** Text made of white space only. *)
Fixpoint all_space (s : string) : bool :=
  match s with
  | EmptyString => true
  | String c s' => Py.isspace c && all_space s'
  end.

(** Text that does not begin with white space. *)
Definition head_kept (s : string) : Prop :=
  match s with
  | EmptyString => True
  | String c _ => Py.isspace c = false
  end.

(** Text that does not end with white space. *)
Fixpoint last_kept (s : string) : Prop :=
  match s with
  | EmptyString => True
  | String c EmptyString => Py.isspace c = false
  | String _ s' => last_kept s'
  end.

(** ** The environment loader *)

(** What a line of [.env] asks for: nothing when it is empty, a comment or
    without [=]; otherwise KEY and VALUE, the text before and after the first
    [=], each without the white space around it. *)
Definition env_pair (line : string) : option (string * string) :=
  let line := Py.strip line in
  if Py.truthy line && negb (Py.startswith "#" line) && Py.contains "=" line then
    match Py.split1 "=" line with
    | [key; value] => Some (Py.strip key, Py.strip value)
    | _ => None
    end
  else None.

Definition set_pair (environ : gmap string string) (p : string * string)
  : gmap string string :=
  <[p.1 := p.2]> environ.

(** The value of the last pair that names [name]. *)
Definition last_value (name : string) (pairs : list (string * string)) : option string :=
  foldl (λ acc p, if decide (p.1 = name) then Some p.2 else acc) None pairs.

(** The pairs of a text of [.env], line by line. *)
Definition env_pairs (text : string) : list (string * string) :=
  omap env_pair (Py.readlines text).

Definition nul : string := String Py.NUL EmptyString.

(** A pair the environment takes: the name is not empty, and neither the
    name nor the value has a NUL character in it. *)
Definition assignable (p : string * string) : bool :=
  Py.truthy p.1 && negb (Py.contains nul p.1) && negb (Py.contains nul p.2).

(** What the assignment of a pair raises when the pair is not one the
    environment takes. *)
Definition embedded_null : exn := Exn ValueError "ValueError" "embedded null byte".
Definition invalid_argument : exn := Exn OtherError "OSError" "[Errno 22] Invalid argument".

Definition refusal (p : string * string) : exn :=
  if Py.contains nul p.1 || Py.contains nul p.2 then embedded_null
  else invalid_argument.

(** The first pair of a list that the environment does not take. *)
Definition first_refused (pairs : list (string * string)) : option (string * string) :=
  List.find (λ p, negb (assignable p)) pairs.


(** ** The configuration resolver *)

(** The lines [main] prints before it resolves the configuration. *)
Definition banner (w : world) : list event :=
  [Print rule; Print "SNOWFLAKE PRIVATE LINK KEY AUTHENTICATION TEST"; Print rule;
   Print ("Test started at: " +:+ started_at w)].

(** A required field passes the check made after prompting. *)
Definition field_set (placeholder : string) (v : option string) : bool :=
  Py.truthy_opt v && negb (Py.contains placeholder (Py.str_opt v)).

(** No required field is empty or holds a placeholder. *)
Definition config_valid (g : config) : bool :=
  field_set "your-actual" (SNOWFLAKE_ACCOUNT g)
  && field_set "your_actual" (SNOWFLAKE_USER g)
  && field_set "your_actual" (SNOWFLAKE_ROLE g)
  && field_set "your_actual" (SNOWFLAKE_WAREHOUSE g).

(** The configuration after the four answers. *)
Definition answered (g : config) (account user role warehouse : string) : config :=
  assign_answers g (Py.strip account) (Py.strip user) (Py.strip role)
    (Py.strip warehouse).

(** What is shown up to the last prompt. *)
Definition prompts (g : config) : list event :=
  [Print (nl +:+ "📋 Please provide your Snowflake connection details:")]
  ++ (if Py.truthy_opt (SNOWFLAKE_ACCOUNT g)
      then [Print "(Some values loaded from environment)"] else [])
  ++ [Print ("(Press Enter to keep existing value or skip)" +:+ nl);
      Prompt "Account URL (e.g., abc123.snowflakecomputing.com): ";
      Prompt "Username: ";
      Prompt "Role (e.g., ACCOUNTADMIN): ";
      Prompt "Warehouse (e.g., COMPUTE_WH): "].

Definition config_lines (g : config) : list event :=
  [Print ("   Account: " +:+ Py.str_opt (SNOWFLAKE_ACCOUNT g));
   Print ("   User: " +:+ Py.str_opt (SNOWFLAKE_USER g));
   Print ("   Role: " +:+ Py.str_opt (SNOWFLAKE_ROLE g));
   Print ("   Warehouse: " +:+ Py.str_opt (SNOWFLAKE_WAREHOUSE g))].

(** The spec's sentence on the resolver, as it is worded: success only with
    a configuration that passes the check for empty fields and placeholders. *)
Definition accepted_only_if_valid (g : config) (stdin : list string) : Prop :=
  ∀ g' rest t,
    get_configuration g stdin = (Ret (true, g', rest), t) → config_valid g' = true.

(** A configuration as a copied template leaves it: all four names set in
    the environment, the account still the placeholder. *)
Definition template_config : config :=
  {| SNOWFLAKE_ACCOUNT := Some "your-actual-account.snowflakecomputing.com";
     SNOWFLAKE_USER := Some "DATADOG";
     SNOWFLAKE_ROLE := Some "DATADOG_ROLE";
     SNOWFLAKE_WAREHOUSE := Some "COMPUTE_WH";
     SNOWFLAKE_DATABASE := "SNOWFLAKE";
     PRIVATE_KEY_PATH := "rsa_key.p8";
     PRIVATE_KEY_PASSWORD := None |}.

(** Only the account comes from the environment. *)
Definition partial_config : config :=
  {| SNOWFLAKE_ACCOUNT := Some "abc123.snowflakecomputing.com";
     SNOWFLAKE_USER := None;
     SNOWFLAKE_ROLE := None;
     SNOWFLAKE_WAREHOUSE := None;
     SNOWFLAKE_DATABASE := "SNOWFLAKE";
     PRIVATE_KEY_PATH := "rsa_key.p8";
     PRIVATE_KEY_PASSWORD := None |}.

(** ** The key loader *)

(** The decoders called, in order. *)
Definition decoders_called (t : list event) : list key_format :=
  omap (λ ev, match ev with Decode f => Some f | _ => None end) t.

Section KeyLoaderTerms.

Variable w : world.
Variable g : config.

(** Where the two-stage decoding ends: with the DER decoder's outcome unless
    that is a [ValueError], and then with the PEM decoder's outcome. *)
Definition decoded (data : list Byte.byte) : decode_outcome :=
  match load_der_private_key w data (PRIVATE_KEY_PASSWORD g) with
  | DecodeValueError _ _ => load_pem_private_key w data (PRIVATE_KEY_PASSWORD g)
  | o => o
  end.

(** Events of the loader up to and including its last decoder call. *)
Definition key_attempt (data : list Byte.byte) : list event :=
  [Print ("Checking for private key file: " +:+ PRIVATE_KEY_PATH g);
   Print ("✅ Key file found (" +:+ Py.str_nat (length data) +:+ " bytes)");
   Print ("Loading private key from: " +:+ PRIVATE_KEY_PATH g);
   ReadFile (PRIVATE_KEY_PATH g);
   Decode DER]
  ++ match load_der_private_key w data (PRIVATE_KEY_PASSWORD g) with
     | DecodeValueError _ _ => [Decode PEM]
     | _ => []
     end.

End KeyLoaderTerms.

(** The lines that close the attempt. *)
Definition key_report (o : decode_outcome) : list event :=
  match o with
  | Decoded _ => [Print "Private key loaded successfully"]
  | DecodeValueError _ msg =>
      if Py.contains "password" (Py.lower msg)
      then [Print "Key requires password but none provided";
            Print "Update PRIVATE_KEY_PASSWORD with your key password"]
      else [Print ("Invalid key format: " +:+ msg)]
  | DecodeOtherError _ msg => [Print ("Error loading key: " +:+ msg)]
  end.

Definition key_of (o : decode_outcome) : option private_key :=
  match o with Decoded k => Some k | _ => None end.

(** ** Events *)

(** Every event of [m] satisfies [P]. *)
Definition emits {A} (P : event → bool) (m : M A) : Prop :=
  forallb P (events m) = true.

(** Events that touch no session: printing, prompting, reading the key. *)
Definition quiet (ev : event) : bool :=
  match ev with
  | Print _ | Prompt _ | ReadFile _ | Decode _ => true
  | _ => false
  end.

(** Events that are allowed while the session is open and leave it open. *)
Definition in_session (ev : event) : bool :=
  match ev with
  | Connect _ | CloseConn => false
  | _ => true
  end.

(** Events of the two query groups: statements and printed lines. *)
Definition querying (ev : event) : bool :=
  match ev with
  | Print _ | Execute _ => true
  | _ => false
  end.

(** Events without statements. *)
Definition silent (ev : event) : bool :=
  match ev with Execute _ => false | _ => true end.

(** ** The connector *)

(** The arguments [test_connection] passes to the connector. *)
Definition connect_args_of (g : config) (k : private_key) : connect_args :=
  {| arg_user := SNOWFLAKE_USER g;
     arg_account := SNOWFLAKE_ACCOUNT g;
     arg_private_key := k;
     arg_role := SNOWFLAKE_ROLE g;
     arg_warehouse := SNOWFLAKE_WAREHOUSE g;
     arg_database := SNOWFLAKE_DATABASE g |}.

Definition connection_intro (g : config) : list event :=
  [Print (nl +:+ "Testing connection to Snowflake...");
   Print ("Account: " +:+ Py.str_opt (SNOWFLAKE_ACCOUNT g));
   Print ("User: " +:+ Py.str_opt (SNOWFLAKE_USER g));
   Print ("Role: " +:+ Py.str_opt (SNOWFLAKE_ROLE g));
   Print ("Warehouse: " +:+ Py.str_opt (SNOWFLAKE_WAREHOUSE g))].

Definition connection_failure (e : exn) : list event :=
  [Print ("Connection failed: " +:+ exn_msg e);
   Print ("Error type: " +:+ exn_name e);
   Print (nl +:+ "Troubleshooting tips:");
   Print "1. Verify SNOWFLAKE_ACCOUNT URL format";
   Print "2. Check SNOWFLAKE_USER exists and has proper permissions";
   Print "3. Ensure SNOWFLAKE_ROLE has necessary privileges";
   Print "4. Confirm private key is associated with the user in Snowflake";
   Print "5. Check if key needs a password (update PRIVATE_KEY_PASSWORD)"].

(** ** The session, read off the events *)

Inductive session := NoSession | Open | Closed.

(** What an event does to the session; [None] when it uses a session that is
    not open, or opens a second one. *)
Definition session_step (s : session) (ev : event) : option session :=
  match ev, s with
  | (Print _ | Prompt _ | ReadFile _ | Decode _), _ => Some s
  | Connect true, NoSession => Some Open
  | Connect false, NoSession => Some NoSession
  | (OpenCursor _ | Execute _ | CloseCursor), Open => Some Open
  | CloseConn, Open => Some Closed
  | _, _ => None
  end.

Fixpoint session_run (s : session) (t : list event) : option session :=
  match t with
  | [] => Some s
  | ev :: t' =>
      match session_step s ev with
      | Some s' => session_run s' t'
      | None => None
      end
  end.

(** ** The run as a whole *)

(** What [main] does once both query groups have returned. *)
Definition summary (g : config) (passed : bool) : list event :=
  [CloseCursor; CloseConn;
   Print (nl +:+ rule); Print "TEST RESULTS SUMMARY"; Print rule]
  ++ if passed then
       [Print "ALL TESTS PASSED";
        Print "Private key authentication working";
        Print "Private Link connection established";
        Print "All monitoring requirements satisfied";
        Print "Ready to configure Datadog integration";
        Print (nl +:+ "NEXT STEPS:");
        Print "1. Configure Datadog Snowflake integration with:";
        Print ("   - Account URL: " +:+ Py.str_opt (SNOWFLAKE_ACCOUNT g));
        Print ("   - Username: " +:+ Py.str_opt (SNOWFLAKE_USER g));
        Print "   - Authentication: Private Key";
        Print ("   - Role: " +:+ Py.str_opt (SNOWFLAKE_ROLE g));
        Print ("   - Warehouse: " +:+ Py.str_opt (SNOWFLAKE_WAREHOUSE g));
        Print "2. Enable all metric collection categories";
        Print "3. Create monitoring dashboard"]
     else
       [Print "SOME TESTS FAILED";
        Print "Check error messages above for troubleshooting"].

Section RunTerms.

Variable w : world.

(** The environment the loader leaves when it returns.  When the loader
    raises there is none: the module is not loaded any further, and [main]
    does not run. *)
Definition stage_environ : option (gmap string string) :=
  match outcome (load_env_file (dot_env w) (environ0 w)) with
  | Ret environ => Some environ
  | Raise _ => None
  end.

(** The environment the module-level names are read from (the process
    environment stands in when the loader raised and nothing is read). *)
Definition startup_environ : gmap string string :=
  default (environ0 w) stage_environ.

(** What the loader prints. *)
Definition startup_events : list event :=
  events (load_env_file (dot_env w) (environ0 w)).

(** The module-level configuration [main] starts from. *)
Definition startup_config : config := module_config startup_environ.

(** The stages of a run, each defined when the stages before it succeeded. *)
Definition stage_config : option config :=
  environ ← stage_environ;
  match outcome (get_configuration (module_config environ) (stdin w)) with
  | Ret (true, g, _) => Some g
  | _ => None
  end.

Definition stage_key : option private_key :=
  g ← stage_config;
  match outcome (load_private_key w g) with
  | Ret (Some k) => Some k
  | _ => None
  end.

Definition stage_connection : option connection :=
  g ← stage_config;
  k ← stage_key;
  match outcome (test_connection w g k) with
  | Ret (Some conn) => Some conn
  | _ => None
  end.

Definition stage_cursor : option cursor :=
  conn ← stage_connection;
  match outcome (test_basic_queries w conn) with
  | Ret (Some cur) => Some cur
  | _ => None
  end.

Definition monitoring_flag : option bool :=
  cur ← stage_cursor;
  match outcome (test_monitoring_access w cur) with
  | Ret b => Some b
  | Raise _ => None
  end.

Definition requirements_flag : option bool :=
  cur ← stage_cursor;
  match outcome (test_datadog_requirements w cur) with
  | Ret b => Some b
  | Raise _ => None
  end.

End RunTerms.

(** ** The query groups *)

Section QueryTerms.

Variable w : world.

(** Whether a probe passes. *)
Definition probe_passes (t : test) : bool :=
  match server w (query t) with
  | Ret ((_ :: _ :: _) :: _) => true
  | _ => false
  end.

(** The line a probe prints. *)
Definition probe_line (t : test) : string :=
  match server w (query t) with
  | Ret ((_ :: v :: _) :: _) => name t +:+ ": " +:+ cell_str v +:+ " records available"
  | Ret ([_] :: _) | Ret ([] :: _) => name t +:+ ": Failed - tuple index out of range"
  | Ret [] => name t +:+ ": Failed - 'NoneType' object is not subscriptable"
  | Raise e => name t +:+ ": Failed - " +:+ exn_msg e
  end.

Definition probe_events (t : test) : list event :=
  [Execute (query t); Print (probe_line t)].

(** A computation that ends with the first statement the server refuses:
    nothing follows that statement, and its exception is the result. *)
Definition ends_at_refusal {A} (m : M A) : Prop :=
  ∀ pre q post e,
    events m = pre ++ Execute q :: post →
    server w q = Raise e →
    post = [] ∧ outcome m = Raise e.

End QueryTerms.

(** The lines of the group's one handler. *)
Definition monitoring_failure (e : exn) : list event :=
  [Print ("Monitoring access test failed: " +:+ exn_msg e);
   Print "This may indicate insufficient permissions for DATADOG_ROLE";
   Print "Ensure role has IMPORTED PRIVILEGES on SNOWFLAKE database"].

(** The statements of the monitoring group, in order. *)
Definition monitoring_queries : list string :=
  [sql_query_history; sql_warehouse_load; sql_storage; sql_credits; sql_query_perf].

(** The spec's sentence on a query group, as it is worded, for the
    statements [queries] run by [run]: one statement raising leaves every
    statement of the group executed. *)
Definition isolated_per_query (w : world) (queries : list string) (run : M bool) : Prop :=
  ∀ q e, q ∈ queries → server w q = Raise e →
         ∀ q', q' ∈ queries → Execute q' ∈ events run.

(** ** The order of the stages *)

(** Events of the resolver: lines and prompts. *)
Definition talking (ev : event) : bool :=
  match ev with
  | Print _ | Prompt _ => true
  | _ => false
  end.

(** Events of a run that opened no session: the quiet ones and a refused
    connection. *)
Definition before_session (ev : event) : bool :=
  match ev with
  | Print _ | Prompt _ | ReadFile _ | Decode _ | Connect false => true
  | _ => false
  end.

(** Events of a run that executed no statement but the identity query and
    closed no cursor. *)
Definition identity_only (ev : event) : bool :=
  match ev with
  | Execute sql => String.eqb sql sql_identity
  | CloseCursor => false
  | _ => true
  end.


(** [ev] is a call of the connector. *)
Definition is_connect (ev : event) : bool :=
  match ev with
  | Connect _ => true
  | _ => false
  end.


(** ** The identity query *)

(** The labels under which [test_basic_queries] prints the four values. *)
Definition identity_labels : list string :=
  ["Snowflake Version: "; "Current User: "; "Current Role: "; "Current Warehouse: "].

(** The cursor [test_basic_queries] returns, if any: the cursor must open
    and the answer must begin with a row of at least four values. *)
Definition identity_cursor (w : world) : option cursor :=
  match conn_cursor w, server w sql_identity with
  | Ret cur, Ret ((_ :: _ :: _ :: _ :: _) :: _) => Some cur
  | _, _ => None
  end.

(** ** Statements executed *)

(** The statements of a run, in the order of their execution. *)
Definition statements (t : list event) : list string :=
  omap (λ ev, match ev with Execute sql => Some sql | _ => None end) t.

(** ** The monitoring flag *)

(** The value can be printed with two decimals. *)
Definition formats (c : cell) : bool :=
  match cell_2f c with Ret _ => true | Raise _ => false end.

(** A row of the warehouse-load or of the credit listing prints: it has
    three values and the second one is a number. *)
Definition name_number_count (r : row) : bool :=
  match r with
  | _ :: c1 :: _ :: _ => formats c1
  | _ => false
  end.

(** A row of the storage listing prints: four values, the last three
    numbers. *)
Definition date_three_numbers (r : row) : bool :=
  match r with
  | _ :: c1 :: c2 :: c3 :: _ => formats c1 && formats c2 && formats c3
  | _ => false
  end.

(** A row of the query-type listing prints: four values, the last two
    numbers. *)
Definition type_count_two_numbers (r : row) : bool :=
  match r with
  | _ :: _ :: c2 :: c3 :: _ => formats c2 && formats c3
  | _ => false
  end.

(** The statement is answered and every row of the answer prints. *)
Definition listing_prints (ok : row → bool) (answer : result (list row)) : bool :=
  match answer with
  | Ret rows => forallb ok rows
  | Raise _ => false
  end.

(** The answers under which the monitoring group passes. *)
Definition monitoring_passes (w : world) : bool :=
  match server w sql_query_history with Ret ((_ :: _) :: _) => true | _ => false end
  && (listing_prints name_number_count (server w sql_warehouse_load)
      && (listing_prints date_three_numbers (server w sql_storage)
          && (listing_prints name_number_count (server w sql_credits)
              && listing_prints type_count_two_numbers (server w sql_query_perf)))).

(** The call returns a value. *)
Definition succeeds {A} (m : M A) : bool :=
  match outcome m with Ret _ => true | Raise _ => false end.

(** ** Prompts *)

(** The texts of the prompts shown, in order. *)
Definition prompts_shown (t : list event) : list string :=
  omap (λ ev, match ev with Prompt text => Some text | _ => None end) t.

(** The four prompts of the resolver, in the order it shows them. *)
Definition four_prompts : list string :=
  ["Account URL (e.g., abc123.snowflakecomputing.com): ";
   "Username: ";
   "Role (e.g., ACCOUNTADMIN): ";
   "Warehouse (e.g., COMPUTE_WH): "].

Definition no_prompt (ev : event) : bool :=
  match ev with
  | Prompt _ => false
  | _ => true
  end.

(** What [input] raises at the end of standard input. *)
Definition end_of_input : exn := Exn OtherError "EOFError" "EOF when reading a line".

(** ** Settings and their sources *)




(** ** Writing a file [.env] *)

(** Text without a line end in it. *)
Fixpoint no_newline (s : string) : bool :=
  match s with
  | EmptyString => true
  | String c s' => negb (Ascii.eqb c Py.LF) && negb (Ascii.eqb c Py.CR) && no_newline s'
  end.

(** The line [KEY=VALUE]. *)
Definition render_pair (p : string * string) : string :=
  p.1 +:+ "=" +:+ p.2 +:+ nl.

(** One line per pair. *)
Fixpoint render (pairs : list (string * string)) : string :=
  match pairs with
  | [] => EmptyString
  | p :: rest => render_pair p +:+ render rest
  end.

(** A pair that can be written on a line and set when read: the name is
    not empty, has no [=] and does not begin with [#]; neither name nor value
    has white space around it, a line end or a NUL character in it. *)
Definition writable (p : string * string) : Prop :=
  p.1 ≠ EmptyString
  ∧ Py.strip p.1 = p.1 ∧ Py.strip p.2 = p.2
  ∧ Py.contains "=" p.1 = false ∧ Py.startswith "#" p.1 = false
  ∧ no_newline p.1 = true ∧ no_newline p.2 = true
  ∧ Py.contains nul p.1 = false ∧ Py.contains nul p.2 = false.

(** * Properties *)

(** The text functions on samples, as Python computes them. *)
Example strip_sample :
  Py.strip (String Py.CR (String Py.LF "  KEY = a b ") +:+ nl) = "KEY = a b".
Proof. reflexivity. Qed.

Example split1_sample :
  Py.split1 "=" "a=b=c" = ["a"; "b=c"] ∧ Py.split1 "=" "=x" = [""; "x"]
  ∧ Py.split1 "=" "abc" = ["abc"].
Proof. repeat split. Qed.

Example lower_sample : Py.lower "Bad Decrypt. Incorrect PASSWORD?" = "bad decrypt. incorrect password?".
Proof. reflexivity. Qed.

Example readlines_sample :
  Py.readlines ("A=1" +:+ String Py.CR (String Py.LF "B=2") +:+ String Py.CR "C=3")
  = ["A=1" +:+ nl; "B=2" +:+ nl; "C=3"].
Proof. reflexivity. Qed.

Example exit_status_sample :
  exit_status Sample.good = 0%Z
  ∧ exit_status Sample.history_denied = 1%Z
  ∧ exit_status Sample.wrong_password = 1%Z.
Proof. repeat split. Qed.

Example load_env_file_sample :
  load_env_file
    (Some "# comment
SNOWFLAKE_USER = svc = x

novalue
SNOWFLAKE_ROLE=R1
SNOWFLAKE_ROLE=R2") ∅
  = (Ret (<["SNOWFLAKE_ROLE" := "R2"]>
            (<["SNOWFLAKE_ROLE" := "R1"]>
               (<["SNOWFLAKE_USER" := "svc = x"]> ∅))),
     [Print "Loading environment variables from .env";
      Print "Environment variables loaded"]).
Proof. reflexivity. Qed.

(** The assignment on samples, as CPython 3.11 answers on Linux. *)
Example environ_setitem_sample :
  environ_setitem ∅ "" "x"
  = (Raise (Exn OtherError "OSError" "[Errno 22] Invalid argument"), [])
  ∧ environ_setitem ∅ "a=b" "c"
    = (Raise (Exn ValueError "ValueError" "illegal environment variable name"), [])
  ∧ environ_setitem ∅ "" (String Py.NUL "c")
    = (Raise (Exn ValueError "ValueError" "embedded null byte"), [])
  ∧ environ_setitem ∅ "a=b" (String Py.NUL "c")
    = (Raise (Exn ValueError "ValueError" "embedded null byte"), [])
  ∧ environ_setitem ∅ "a b" "" = (Ret (<["a b" := ""]> ∅), []).
Proof. repeat split. Qed.

Example script_empty_name_sample :
  script Sample.empty_name
  = (Raise (Exn OtherError "OSError" "[Errno 22] Invalid argument"),
     [Print "Loading environment variables from .env"])
  ∧ exit_status Sample.empty_name = 1%Z.
Proof. split; reflexivity. Qed.

(** ** Stripping, searching and splitting text *)

Section Strings.

Import Py.

Lemma app_cons c a b : String c a +:+ b = String c (a +:+ b).
Proof. reflexivity. Qed.

Lemma app_nil b : EmptyString +:+ b = b.
Proof. reflexivity. Qed.

Lemma lstrip_head_kept s : head_kept (lstrip s).
Proof.
  induction s as [|c s IH]; simpl; [exact I|].
  destruct (isspace c) eqn:E; [exact IH | exact E].
Qed.

Lemma head_kept_lstrip s : head_kept s → lstrip s = s.
Proof. destruct s as [|c s]; simpl; [reflexivity|]. intros ->. reflexivity. Qed.

Lemma lstrip_prefix s : ∃ a, s = a +:+ lstrip s ∧ all_space a = true.
Proof.
  induction s as [|c s [a [Hs Ha]]]; simpl.
  - exists EmptyString. split; reflexivity.
  - destruct (isspace c) eqn:E.
    + exists (String c a). rewrite app_cons, <- Hs. simpl. rewrite E, Ha. auto.
    + exists EmptyString. split; reflexivity.
Qed.

Lemma rstrip_suffix s : ∃ b, s = rstrip s +:+ b ∧ all_space b = true.
Proof.
  induction s as [|c s [b [Hs Hb]]]; simpl.
  - exists EmptyString. split; reflexivity.
  - destruct (rstrip s) as [|d r] eqn:E.
    + rewrite app_nil in Hs. subst b. destruct (isspace c) eqn:Ec.
      * exists (String c s). rewrite app_nil. simpl. rewrite Ec, Hb. auto.
      * exists s. rewrite app_cons, app_nil. auto.
    + exists b. rewrite app_cons, <- Hs. auto.
Qed.

Lemma rstrip_last_kept s : last_kept (rstrip s).
Proof.
  induction s as [|c s IH]; simpl; [exact I|].
  destruct (rstrip s) as [|d r] eqn:E.
  - destruct (isspace c) eqn:Ec; simpl; [exact I | exact Ec].
  - exact IH.
Qed.

Lemma rstrip_head_kept s : head_kept s → head_kept (rstrip s).
Proof.
  destruct s as [|c s]; simpl; [trivial|]. intros Hc.
  destruct (rstrip s); [rewrite Hc|]; exact Hc.
Qed.

Lemma last_kept_rstrip s : last_kept s → rstrip s = s.
Proof.
  induction s as [|c s IH]; [reflexivity|]. intros H.
  destruct s as [|d s].
  - simpl in *. rewrite H. reflexivity.
  - change (rstrip (String c (String d s)))
      with (match rstrip (String d s) with
            | EmptyString => if isspace c then EmptyString else String c EmptyString
            | r => String c r
            end).
    rewrite (IH H). reflexivity.
Qed.

Lemma strip_head_kept s : head_kept (strip s).
Proof. apply rstrip_head_kept, lstrip_head_kept. Qed.

Lemma strip_last_kept s : last_kept (strip s).
Proof. apply rstrip_last_kept. Qed.

(** [strip] removes white space at both ends and nothing else. *)
Lemma strip_spec s :
  ∃ a b, s = a +:+ strip s +:+ b ∧ all_space a = true ∧ all_space b = true.
Proof.
  destruct (lstrip_prefix s) as [a [Hs Ha]].
  destruct (rstrip_suffix (lstrip s)) as [b [Hl Hb]].
  exists a, b. unfold strip. rewrite <- Hl. auto.
Qed.

Lemma strip_involutive s : strip (strip s) = strip s.
Proof.
  unfold strip at 1.
  rewrite (head_kept_lstrip _ (strip_head_kept s)).
  apply last_kept_rstrip, strip_last_kept.
Qed.

Lemma all_space_strip s : all_space s = true → strip s = EmptyString.
Proof.
  unfold strip. induction s as [|c s IH]; simpl; [reflexivity|].
  intros [Hc Hs]%andb_true_iff. rewrite Hc. auto.
Qed.


Lemma contains_char_cons (sep c : ascii) s :
  contains (String sep EmptyString) (String c s)
  = Ascii.eqb sep c || contains (String sep EmptyString) s.
Proof. cbn [contains startswith]. destruct (Ascii.eqb sep c); reflexivity. Qed.

Lemma contains_char_app (sep : ascii) a b :
  contains (String sep EmptyString) (a +:+ b)
  = contains (String sep EmptyString) a || contains (String sep EmptyString) b.
Proof.
  induction a as [|c a IH].
  - rewrite app_nil. reflexivity.
  - rewrite app_cons, !contains_char_cons, IH, orb_assoc. reflexivity.
Qed.

Lemma contains_char_strip (sep : ascii) s :
  contains (String sep EmptyString) s = false →
  contains (String sep EmptyString) (strip s) = false.
Proof.
  destruct (strip_spec s) as [a [b [Hs _]]]. rewrite Hs at 1.
  rewrite !contains_char_app. intros H.
  apply orb_false_iff in H as [_ H]. apply orb_false_iff in H as [H _]. exact H.
Qed.

(** Splitting once at a separator that occurs: the two parts are the text
    before its first occurrence and the text after it. *)
Lemma split1_first (sep : ascii) k v :
  contains (String sep EmptyString) k = false →
  split1 sep (k +:+ String sep v) = [k; v].
Proof.
  induction k as [|c k IH]; intros Hk.
  - rewrite app_nil. simpl. rewrite Ascii.eqb_refl. reflexivity.
  - rewrite contains_char_cons in Hk. apply orb_false_iff in Hk as [Hc Hk].
    rewrite app_cons. simpl. rewrite Ascii.eqb_sym, Hc, (IH Hk). reflexivity.
Qed.

Lemma contains_char_split (sep : ascii) s :
  contains (String sep EmptyString) s = true →
  ∃ k v, s = k +:+ String sep v ∧ contains (String sep EmptyString) k = false.
Proof.
  induction s as [|c s IH]; [discriminate|].
  rewrite contains_char_cons. destruct (Ascii.eqb sep c) eqn:E.
  - apply Ascii.eqb_eq in E. subst c. intros _.
    exists EmptyString, s. split; reflexivity.
  - simpl. intros H. destruct (IH H) as [k [v [Hs Hk]]].
    exists (String c k), v. rewrite app_cons, <- Hs. split; [reflexivity|].
    rewrite contains_char_cons, E, Hk. reflexivity.
Qed.

End Strings.

(** ** The environment loader *)

Ltac run_monad :=
  unfold mbind, M_bind, mret, M_ret, bind, try_except, ret, raise, print, emit, lift.

Section EnvLoader.

Import Py.

Lemma env_pair_accept line key value :
  strip line = key +:+ String "=" value →
  contains "=" key = false →
  startswith "#" (strip line) = false →
  env_pair line = Some (strip key, strip value).
Proof.
  intros Hl Hk Hc. unfold env_pair. rewrite Hc, Hl.
  rewrite contains_char_app, contains_char_cons, Ascii.eqb_refl, orb_true_r.
  rewrite (split1_first _ _ _ Hk).
  destruct key; reflexivity.
Qed.

Lemma env_pair_defined line :
  let l := strip line in
  truthy l && negb (startswith "#" l) && contains "=" l = true →
  ∃ key value, split1 "=" l = [key; value].
Proof.
  intros l H. apply andb_true_iff in H as [_ H].
  destruct (contains_char_split _ _ H) as [k [v [Hl Hk]]].
  exists k, v. rewrite Hl. apply split1_first, Hk.
Qed.

(** The name of a pair read from a line has no [=] in it. *)
Lemma env_pair_name line key value :
  env_pair line = Some (key, value) → contains "=" key = false.
Proof.
  unfold env_pair.
  destruct (truthy (strip line) && negb (startswith "#" (strip line))
            && contains "=" (strip line)) eqn:E; [|discriminate].
  apply andb_true_iff in E as [_ E].
  destruct (contains_char_split _ _ E) as [k [v [Hl Hk]]].
  rewrite Hl, (split1_first _ _ _ Hk). intros [= <- _].
  apply contains_char_strip, Hk.
Qed.

(** The assignment, for a name without [=]. *)
Lemma environ_setitem_pair environ key value :
  contains "=" key = false →
  environ_setitem environ key value
  = if assignable (key, value)
    then (Ret (<[key := value]> environ), [])
    else (Raise (refusal (key, value)), []).
Proof.
  intros Hk. unfold environ_setitem, assignable, refusal, nul. cbn [fst snd].
  rewrite Hk.
  destruct (contains (String NUL EmptyString) key),
           (contains (String NUL EmptyString) value), (truthy key); reflexivity.
Qed.

(** The unpacking always finds two parts: the loop body raises only what
    the assignment raises. *)
Lemma load_env_line_pair environ line :
  load_env_line environ line
  = match env_pair line with
    | Some p =>
        if assignable p then (Ret (set_pair environ p), [])
        else (Raise (refusal p), [])
    | None => (Ret environ, [])
    end.
Proof.
  destruct (env_pair line) as [[key value]|] eqn:Ep.
  - transitivity (environ_setitem environ key value);
      [|exact (environ_setitem_pair environ _ _ (env_pair_name _ _ _ Ep))].
    revert Ep. unfold load_env_line, env_pair.
    destruct (truthy (strip line) && negb (startswith "#" (strip line))
              && contains "=" (strip line)) eqn:E; [|discriminate].
    destruct (env_pair_defined line E) as [k [v ->]]. intros [= <- <-]. reflexivity.
  - revert Ep. unfold load_env_line, env_pair.
    destruct (truthy (strip line) && negb (startswith "#" (strip line))
              && contains "=" (strip line)) eqn:E; [|reflexivity].
    destruct (env_pair_defined line E) as [k [v ->]]. discriminate.
Qed.

Lemma env_pair_no_equals line : contains "=" line = false → env_pair line = None.
Proof.
  intros H. unfold env_pair. rewrite (contains_char_strip _ _ H), andb_false_r.
  reflexivity.
Qed.



(** The loop: every pair is set, up to the first one that is refused. *)
Lemma load_env_lines_fold lines : ∀ environ,
  load_env_lines environ lines
  = match first_refused (omap env_pair lines) with
    | None => (Ret (foldl set_pair environ (omap env_pair lines)), [])
    | Some p => (Raise (refusal p), [])
    end.
Proof.
  induction lines as [|line rest IH]; intros environ; [reflexivity|].
  cbn [load_env_lines omap list_omap]. run_monad.
  rewrite load_env_line_pair.
  destruct (env_pair line) as [p|];
    [|rewrite IH; destruct (first_refused _); reflexivity].
  unfold first_refused. cbn [List.find].
  destruct (assignable p); cbn [negb]; [|reflexivity].
  rewrite IH. unfold first_refused. destruct (List.find _ _); reflexivity.
Qed.

Lemma first_refused_none pairs :
  forallb assignable pairs = true → first_refused pairs = None.
Proof.
  unfold first_refused. induction pairs as [|p pairs IH]; [reflexivity|].
  cbn [forallb List.find]. intros [Hp H]%andb_true_iff. rewrite Hp. exact (IH H).
Qed.

Lemma first_refused_some taken p rest :
  forallb assignable taken = true → assignable p = false →
  first_refused (taken ++ p :: rest) = Some p.
Proof.
  unfold first_refused. intros Ht Hp. induction taken as [|q taken IH].
  - cbn [app List.find]. rewrite Hp. reflexivity.
  - cbn [forallb] in Ht. apply andb_true_iff in Ht as [Hq Ht].
    cbn [app List.find]. rewrite Hq. exact (IH Ht).
Qed.


(** The loader as a whole. *)
Lemma load_env_file_text text environ :
  load_env_file (Some text) environ
  = match first_refused (env_pairs text) with
    | None =>
        (Ret (foldl set_pair environ (env_pairs text)),
         [Print "Loading environment variables from .env";
          Print "Environment variables loaded"])
    | Some p =>
        (Raise (refusal p), [Print "Loading environment variables from .env"])
    end.
Proof.
  unfold load_env_file, env_pairs. run_monad. rewrite load_env_lines_fold.
  destruct (first_refused _); reflexivity.
Qed.

Lemma foldl_set_pair_lookup pairs : ∀ (environ : gmap string string) name,
  foldl set_pair environ pairs !! name
  = match last_value name pairs with
    | Some v => Some v
    | None => environ !! name
    end.
Proof.
  induction pairs as [|p pairs IH] using rev_ind; intros environ name; [reflexivity|].
  unfold last_value. rewrite !foldl_app. cbn [foldl]. unfold set_pair at 1.
  destruct (decide (p.1 = name)) as [->|Hne].
  - apply lookup_insert_eq.
  - rewrite lookup_insert_ne by exact Hne. apply IH.
Qed.

End EnvLoader.




(** C10.  A line of [.env] without [=] is passed over in silence.  A line
    that is taken is cut at its first [=] only, and the text before and the
    text after it are stripped of the white space around them before they are
    assigned in the environment: the turn of the loop is the assignment of
    the stripped value to the stripped name, which writes the pair when the
    name is not empty and neither has a NUL character in it, and raises
    otherwise. *)
Theorem env_line_split_at_first_equals :
  (∀ environ line,
      Py.contains "=" line = false →
      load_env_line environ line = (Ret environ, []))
  ∧ (∀ environ line key value,
        Py.strip line = key +:+ String "=" value →
        Py.contains "=" key = false →
        Py.startswith "#" (Py.strip line) = false →
        load_env_line environ line
        = environ_setitem environ (Py.strip key) (Py.strip value)
        ∧ (Py.strip key ≠ EmptyString →
           Py.contains nul (Py.strip key) = false →
           Py.contains nul (Py.strip value) = false →
           load_env_line environ line
           = (Ret (<[Py.strip key := Py.strip value]> environ), []))
        ∧ (Py.strip key = EmptyString ∨ Py.contains nul (Py.strip key) = true
           ∨ Py.contains nul (Py.strip value) = true →
           ∃ e, load_env_line environ line = (Raise e, [])))
  ∧ (∀ s, ∃ a b,
        s = a +:+ Py.strip s +:+ b
        ∧ all_space a = true ∧ all_space b = true
        ∧ head_kept (Py.strip s) ∧ last_kept (Py.strip s)).
Proof.
  split; [|split].
  - intros environ line H. rewrite load_env_line_pair, (env_pair_no_equals _ H).
    reflexivity.
  - intros environ line key value Hl Hk Hc.
    pose proof (contains_char_strip _ _ Hk) as Hk'.
    rewrite load_env_line_pair, (env_pair_accept _ _ _ Hl Hk Hc).
    rewrite (environ_setitem_pair environ _ _ Hk').
    split; [reflexivity|]. unfold assignable. cbn [fst snd]. split.
    + intros Hn Hnk Hnv. rewrite Hnk, Hnv.
      destruct (Py.strip key); [congruence | reflexivity].
    + intros [H|[H|H]]; rewrite H, ?andb_false_r; eexists; reflexivity.
  - intros s. destruct (strip_spec s) as [a [b [Hs [Ha Hb]]]].
    exists a, b. repeat split; auto using strip_head_kept, strip_last_kept.
Qed.

Lemma env_line_split_at_first_equals_witness :
  load_env_line ∅ ("no value here" +:+ nl) = (Ret ∅, [])
  ∧ load_env_line ∅ ("  SNOWFLAKE_USER = svc = x  " +:+ nl)
    = (Ret (<["SNOWFLAKE_USER" := "svc = x"]> ∅), [])
  ∧ load_env_line ∅ (" = x" +:+ nl) = environ_setitem ∅ "" "x".
Proof.
  split; [|split].
  - apply (proj1 env_line_split_at_first_equals). reflexivity.
  - apply (proj1 (proj2 (proj1 (proj2 env_line_split_at_first_equals)
             ∅ ("  SNOWFLAKE_USER = svc = x  " +:+ nl) "SNOWFLAKE_USER " " svc = x"
             eq_refl eq_refl eq_refl)));
      [discriminate | reflexivity | reflexivity].
  - apply (proj1 (proj1 (proj2 env_line_split_at_first_equals)
             ∅ (" = x" +:+ nl) "" " x" eq_refl eq_refl eq_refl)).
Defined.

(** ** The configuration resolver *)

Section Resolver.

Lemma unset_or_placeholder_field_set p v :
  unset_or_placeholder p v = negb (field_set p v).
Proof.
  unfold unset_or_placeholder, field_set.
  destruct (Py.truthy_opt v), (Py.contains p (Py.str_opt v)); reflexivity.
Qed.

Lemma missing_fields_nil g : missing_fields g = [] ↔ config_valid g = true.
Proof.
  unfold missing_fields, config_valid. rewrite !unset_or_placeholder_field_set.
  destruct (field_set "your-actual" (SNOWFLAKE_ACCOUNT g)),
    (field_set "your_actual" (SNOWFLAKE_USER g)),
    (field_set "your_actual" (SNOWFLAKE_ROLE g)),
    (field_set "your_actual" (SNOWFLAKE_WAREHOUSE g));
    simpl; split; intros H; try reflexivity; discriminate H.
Qed.

Lemma config_valid_env_loaded g : config_valid g = true → env_loaded g = true.
Proof.
  unfold config_valid, env_loaded, field_set.
  destruct (Py.truthy_opt (SNOWFLAKE_ACCOUNT g)), (Py.truthy_opt (SNOWFLAKE_USER g)),
    (Py.truthy_opt (SNOWFLAKE_ROLE g)), (Py.truthy_opt (SNOWFLAKE_WAREHOUSE g));
    simpl; try reflexivity; rewrite ?andb_false_r; intros H; discriminate H.
Qed.

Lemma get_configuration_env g stdin :
  env_loaded g = true →
  get_configuration g stdin
  = (Ret (true, g, stdin),
     Print (nl +:+ "✅ Configuration loaded from environment variables:")
     :: config_lines g).
Proof. intros H. unfold get_configuration. rewrite H. reflexivity. Qed.

Lemma get_configuration_prompted g a u r wh rest :
  env_loaded g = false →
  get_configuration g (a :: u :: r :: wh :: rest)
  = let g' := answered g a u r wh in
    match missing_fields g' with
    | [] =>
        (Ret (true, g', rest),
         prompts g ++ Print (nl +:+ "✅ Configuration set:") :: config_lines g')
    | missing =>
        (Ret (false, g', rest),
         prompts g
         ++ [Print (nl +:+ "❌ Missing configuration: " +:+ Py.join ", " missing);
             Print "Please update the script or provide values when prompted."])
    end.
Proof.
  intros H. unfold get_configuration, prompts, answered. rewrite H.
  cbv [mbind M_bind bind input emit mret M_ret ret print raise print_config].
  destruct (missing_fields _);
    destruct (Py.truthy_opt (SNOWFLAKE_ACCOUNT g)); reflexivity.
Qed.

(** With fewer than four lines on standard input the call ends in
    [EOFError]. *)
Lemma get_configuration_eof g stdin :
  env_loaded g = false → length stdin < 4 →
  ∃ e t, get_configuration g stdin = (Raise e, t).
Proof.
  intros H Hlen. unfold get_configuration. rewrite H.
  destruct (Py.truthy_opt (SNOWFLAKE_ACCOUNT g));
    (destruct stdin as [|a [|u [|r [|wh rest]]]];
     [eexists; eexists; reflexivity ..|simpl in Hlen; lia]).
Qed.

End Resolver.

Section ResolverClaims.

Lemma missing_fields_lists_failing g :
  bool_decide ("ACCOUNT" ∈ missing_fields g)
  = negb (field_set "your-actual" (SNOWFLAKE_ACCOUNT g))
  ∧ bool_decide ("USER" ∈ missing_fields g)
    = negb (field_set "your_actual" (SNOWFLAKE_USER g))
  ∧ bool_decide ("ROLE" ∈ missing_fields g)
    = negb (field_set "your_actual" (SNOWFLAKE_ROLE g))
  ∧ bool_decide ("WAREHOUSE" ∈ missing_fields g)
    = negb (field_set "your_actual" (SNOWFLAKE_WAREHOUSE g)).
Proof.
  unfold missing_fields. rewrite !unset_or_placeholder_field_set.
  destruct (field_set "your-actual" (SNOWFLAKE_ACCOUNT g)),
    (field_set "your_actual" (SNOWFLAKE_USER g)),
    (field_set "your_actual" (SNOWFLAKE_ROLE g)),
    (field_set "your_actual" (SNOWFLAKE_WAREHOUSE g));
    vm_compute; auto.
Qed.

Lemma main_stops_unconfigured w g g' rest t :
  get_configuration g (stdin w) = (Ret (false, g', rest), t) →
  main w g = (Ret (false, g'), banner w ++ t).
Proof.
  intros H. unfold main, banner.
  cbv [mbind M_bind bind emit mret M_ret ret print]. rewrite H.
  cbn [negb]. rewrite app_nil_r. reflexivity.
Qed.

End ResolverClaims.

(** C2, as stated, fails: when the environment provides all four fields the
    resolver accepts them as they are, a placeholder included. *)
Lemma resolver_accepts_placeholder_from_environment :
  ¬ accepted_only_if_valid template_config [].
Proof.
  intros H. specialize (H template_config [] _ eq_refl). vm_compute in H.
  discriminate H.
Qed.

(** C2, amended.  The resolver returns success only if, after merging, none
    of the four required fields is empty, and, when it had to prompt, only if
    none of them holds a placeholder either; a configuration that the
    environment provides in full is accepted unchanged.  When the check made
    after prompting fails, the fields that failed are reported, the call
    returns failure, and [main] stops there. *)
Theorem resolver_accepts_only_complete_configuration :
  (∀ g stdin g' rest t,
      get_configuration g stdin = (Ret (true, g', rest), t) →
      env_loaded g' = true
      ∧ (env_loaded g = true → g' = g)
      ∧ (env_loaded g = false → config_valid g' = true))
  ∧ (∀ g a u r wh rest,
        env_loaded g = false →
        config_valid (answered g a u r wh) = false →
        get_configuration g (a :: u :: r :: wh :: rest)
        = (Ret (false, answered g a u r wh, rest),
           prompts g
           ++ [Print (nl +:+ "❌ Missing configuration: "
                      +:+ Py.join ", " (missing_fields (answered g a u r wh)));
               Print "Please update the script or provide values when prompted."]))
  ∧ (∀ g,
        bool_decide ("ACCOUNT" ∈ missing_fields g)
        = negb (field_set "your-actual" (SNOWFLAKE_ACCOUNT g))
        ∧ bool_decide ("USER" ∈ missing_fields g)
          = negb (field_set "your_actual" (SNOWFLAKE_USER g))
        ∧ bool_decide ("ROLE" ∈ missing_fields g)
          = negb (field_set "your_actual" (SNOWFLAKE_ROLE g))
        ∧ bool_decide ("WAREHOUSE" ∈ missing_fields g)
          = negb (field_set "your_actual" (SNOWFLAKE_WAREHOUSE g)))
  ∧ (∀ w g g' rest t,
        get_configuration g (stdin w) = (Ret (false, g', rest), t) →
        main w g = (Ret (false, g'), banner w ++ t)).
Proof.
  split; [|split; [|split]].
  - intros g stdin g' rest t H.
    destruct (env_loaded g) eqn:E.
    + rewrite (get_configuration_env _ _ E) in H. injection H as <- _ _.
      repeat split; [exact E | discriminate].
    + destruct (decide (length stdin < 4)) as [Hlen|Hlen].
      * destruct (get_configuration_eof g stdin E Hlen) as [e [t' He]].
        rewrite He in H. discriminate H.
      * destruct stdin as [|a [|u [|r [|wh rest']]]]; try (simpl in Hlen; lia).
        rewrite (get_configuration_prompted _ _ _ _ _ _ E) in H. cbv zeta in H.
        destruct (missing_fields (answered g a u r wh)) eqn:Em; [|discriminate H].
        injection H as <- _ _. apply missing_fields_nil in Em.
        repeat split; [apply config_valid_env_loaded, Em | discriminate | auto].
  - intros g a u r wh rest E Hv.
    rewrite (get_configuration_prompted _ _ _ _ _ _ E). cbv zeta.
    destruct (missing_fields (answered g a u r wh)) eqn:Em; [|reflexivity].
    apply missing_fields_nil in Em. congruence.
  - apply missing_fields_lists_failing.
  - apply main_stops_unconfigured.
Qed.

Lemma resolver_accepts_only_complete_configuration_witness :
  get_configuration partial_config [""; "DATADOG"; "your_actual_role"; ""]
  = (Ret (false, answered partial_config "" "DATADOG" "your_actual_role" "", []),
     prompts partial_config
     ++ [Print (nl +:+ "❌ Missing configuration: ROLE, WAREHOUSE");
         Print "Please update the script or provide values when prompted."])
  ∧ (env_loaded template_config = true
     ∧ (env_loaded template_config = true → template_config = template_config)
     ∧ (env_loaded template_config = false → config_valid template_config = true)).
Proof.
  split.
  - apply (proj1 (proj2 resolver_accepts_only_complete_configuration)
             partial_config "" "DATADOG" "your_actual_role" "" []); reflexivity.
  - apply (proj1 resolver_accepts_only_complete_configuration
             template_config [] template_config [] _ eq_refl).
Defined.

(** ** The key loader *)

Section KeyLoader.

Variable w : world.
Variable g : config.

Let path := PRIVATE_KEY_PATH g.
Let password := PRIVATE_KEY_PASSWORD g.

Lemma load_private_key_absent :
  fs w path = None →
  load_private_key w g
  = (Ret None,
     [Print ("Checking for private key file: " +:+ path);
      Print ("❌ Key file not found: " +:+ path);
      Print "💡 Make sure rsa_key.p8 is in the same directory as this script"]).
Proof.
  intros H. unfold load_private_key, path_exists. fold path. rewrite H. reflexivity.
Qed.

Lemma load_private_key_unreadable size err_name err_msg :
  fs w path = Some (Unreadable size err_name err_msg) →
  load_private_key w g
  = (Ret None,
     [Print ("Checking for private key file: " +:+ path);
      Print ("✅ Key file found (" +:+ Py.str_nat size +:+ " bytes)");
      Print ("Loading private key from: " +:+ path);
      ReadFile path;
      Print ("Error loading key: " +:+ err_msg)]).
Proof.
  intros H. unfold load_private_key, path_exists, getsize, read_bytes. fold path.
  rewrite H. reflexivity.
Qed.

Lemma load_private_key_readable data :
  fs w path = Some (Readable data) →
  load_private_key w g
  = (Ret (key_of (decoded w g data)), key_attempt w g data ++ key_report (decoded w g data)).
Proof.
  intros H.
  unfold load_private_key, path_exists, getsize, read_bytes, decode,
    try_except_ValueError, key_attempt, decoded.
  fold path password. rewrite H.
  cbv [mbind M_bind bind emit mret M_ret ret print raise try_except negb].
  destruct (load_der_private_key w data password) as [k|n m|n m];
    [reflexivity| |reflexivity].
  destruct (load_pem_private_key w data password) as [k|n' m'|n' m'];
    [reflexivity| |reflexivity].
  cbn [exn_class_of exn_msg key_report key_of].
  destruct (Py.contains "password" (Py.lower m')); reflexivity.
Qed.

(** The loader always returns; it raises nothing. *)
Lemma load_private_key_returns :
  ∃ k t, load_private_key w g = (Ret k, t).
Proof.
  destruct (fs w path) as [[data|size n m]|] eqn:E.
  - rewrite (load_private_key_readable _ E). eauto.
  - rewrite (load_private_key_unreadable _ _ _ E). eauto.
  - rewrite (load_private_key_absent E). eauto.
Qed.

End KeyLoader.



(** ** Events of a call, compositionally *)

Section Emits.

Variable P : event → bool.

Lemma emits_ret {A} (a : A) : emits P (mret a).
Proof. reflexivity. Qed.

Lemma emits_raise {A} e : emits P (@raise A e).
Proof. reflexivity. Qed.

Lemma emits_lift {A} (r : result A) : emits P (lift r).
Proof. reflexivity. Qed.

Lemma emits_emit ev : P ev = true → emits P (emit ev).
Proof. intros H. unfold emits. simpl. rewrite H. reflexivity. Qed.

Lemma emits_print line : P (Print line) = true → emits P (print line).
Proof. apply emits_emit. Qed.

Lemma emits_bind {A B} (m : M A) (f : A → M B) :
  emits P m → (∀ a, emits P (f a)) → emits P (m ≫= f).
Proof.
  unfold emits, events, mbind, M_bind, bind. destruct m as [[a|e] t]; simpl.
  - intros Ht Hf. specialize (Hf a). destruct (f a) as [r t']. simpl in *.
    rewrite forallb_app, Ht, Hf. reflexivity.
  - auto.
Qed.

Lemma emits_try_except {A} (m : M A) h :
  emits P m → (∀ e, emits P (h e)) → emits P (try_except m h).
Proof.
  unfold emits, events, try_except. destruct m as [[a|e] t]; simpl; [auto|].
  intros Ht Hh. specialize (Hh e). destruct (h e) as [r t']. simpl in *.
  rewrite forallb_app, Ht, Hh. reflexivity.
Qed.

Lemma emits_for_each {A} (l : list A) body :
  (∀ x, emits P (body x)) → emits P (for_each l body).
Proof.
  intros H. induction l as [|x l IH]; [reflexivity|].
  cbn [for_each]. apply emits_bind; auto.
Qed.

End Emits.

Ltac emits_step :=
  first
    [ apply emits_ret | apply emits_raise | apply emits_lift
    | apply emits_print; reflexivity
    | apply emits_emit; reflexivity
    | apply emits_for_each; intros ?
    | apply emits_try_except; [|intros ?]
    | apply emits_bind; [|intros ?]
    | match goal with
      | |- emits _ (match ?x with _ => _ end) => destruct x
      | |- emits _ (let '(_, _) := ?x in _) => destruct x
      end ].

Ltac solve_emits := repeat emits_step.

Section StageEvents.

Variable w : world.

Lemma input_quiet prompt stdin : emits quiet (input prompt stdin).
Proof. unfold input. solve_emits. Qed.

Lemma get_configuration_quiet g stdin : emits quiet (get_configuration g stdin).
Proof.
  unfold get_configuration, print_config.
  destruct (env_loaded g); [solve_emits|].
  repeat (first [apply input_quiet | emits_step]).
Qed.

Lemma load_private_key_quiet g : emits quiet (load_private_key w g).
Proof.
  destruct (fs w (PRIVATE_KEY_PATH g)) as [[data|size n m]|] eqn:E.
  - rewrite (load_private_key_readable _ _ _ E). unfold emits, events, key_attempt.
    cbn [snd]. rewrite forallb_app.
    destruct (load_der_private_key w data (PRIVATE_KEY_PASSWORD g));
      destruct (decoded w g data) as [?|? msg|?]; try reflexivity;
      cbn [key_report]; destruct (Py.contains "password" (Py.lower msg)); reflexivity.
  - rewrite (load_private_key_unreadable _ _ _ _ _ E). reflexivity.
  - rewrite (load_private_key_absent _ _ E). reflexivity.
Qed.

Lemma execute_querying c sql : emits querying (execute w c sql).
Proof. unfold execute. solve_emits. Qed.

Lemma row_item_querying r i : emits querying (row_item r i).
Proof. unfold row_item. solve_emits. Qed.

Lemma item_querying r i : emits querying (item r i).
Proof. unfold item. destruct r; [apply row_item_querying | solve_emits]. Qed.

Lemma format_2f_querying c : emits querying (format_2f c).
Proof. apply emits_lift. Qed.

Ltac solve_querying :=
  repeat first
    [ apply execute_querying | apply item_querying | apply row_item_querying
    | apply format_2f_querying | emits_step ].

Lemma test_monitoring_access_querying c : emits querying (test_monitoring_access w c).
Proof. unfold test_monitoring_access, fetchall. solve_querying. Qed.

Lemma requirements_loop_querying c tests :
  ∀ all_passed, emits querying (requirements_loop w c all_passed tests).
Proof.
  induction tests as [|t tests IH]; intros all_passed; [apply emits_ret|].
  cbn [requirements_loop]. apply emits_bind; [|intros ?; apply IH].
  unfold requirement_step. solve_querying.
Qed.

Lemma test_datadog_requirements_querying c :
  emits querying (test_datadog_requirements w c).
Proof.
  unfold test_datadog_requirements.
  apply emits_try_except; [|intros ?; solve_emits].
  apply emits_bind; [solve_emits | intros ?; apply requirements_loop_querying].
Qed.

End StageEvents.

(** ** Stages that always return *)

Section Returns.

Variable w : world.

Lemma try_except_total {A} (m : M A) h :
  (∀ e, ∃ a t, h e = (Ret a, t)) → ∃ a t, try_except m h = (Ret a, t).
Proof.
  intros Hh. destruct m as [[a|e] t]; simpl; [eauto|].
  destruct (Hh e) as [a [t' ->]]. eauto.
Qed.

Lemma test_connection_returns g k : ∃ c t, test_connection w g k = (Ret c, t).
Proof. apply try_except_total. intros e. eexists. eexists. reflexivity. Qed.

Lemma test_basic_queries_returns conn : ∃ c t, test_basic_queries w conn = (Ret c, t).
Proof. apply try_except_total. intros e. eexists. eexists. reflexivity. Qed.

Lemma test_monitoring_access_returns c : ∃ b t, test_monitoring_access w c = (Ret b, t).
Proof. apply try_except_total. intros e. eexists. eexists. reflexivity. Qed.

Lemma test_datadog_requirements_returns c :
  ∃ b t, test_datadog_requirements w c = (Ret b, t).
Proof. apply try_except_total. intros e. eexists. eexists. reflexivity. Qed.

Lemma test_connection_eq g k :
  test_connection w g k
  = match connector w (connect_args_of g k) with
    | Ret c =>
        (Ret (Some c),
         connection_intro g
         ++ [Connect true; Print "Connection established successfully"])
    | Raise e =>
        (Ret None, connection_intro g ++ Connect false :: connection_failure e)
    end.
Proof.
  unfold test_connection, connect. fold (connect_args_of g k).
  destruct (connector w (connect_args_of g k)); reflexivity.
Qed.

Lemma test_basic_queries_in_session conn : emits in_session (test_basic_queries w conn).
Proof.
  unfold test_basic_queries, open_cursor, execute, item, row_item.
  solve_emits.
Qed.

Lemma emits_weaken {A} (P Q : event → bool) (m : M A) :
  (∀ ev, P ev = true → Q ev = true) → emits P m → emits Q m.
Proof.
  unfold emits. intros HPQ. induction (events m) as [|ev t IH]; [reflexivity|].
  simpl. intros [Hev Ht]%andb_true_iff. rewrite (HPQ _ Hev), (IH Ht). reflexivity.
Qed.

Lemma querying_in_session ev : querying ev = true → in_session ev = true.
Proof. destruct ev; simpl; congruence. Qed.

Lemma quiet_in_session ev : quiet ev = true → in_session ev = true.
Proof. destruct ev; simpl; congruence. Qed.

End Returns.

(** ** The session, read off the events *)

Lemma session_run_app s t1 t2 :
  session_run s (t1 ++ t2)
  = match session_run s t1 with
    | Some s' => session_run s' t2
    | None => None
    end.
Proof.
  revert s. induction t1 as [|ev t1 IH]; intros s; [reflexivity|].
  simpl. destruct (session_step s ev); [apply IH | reflexivity].
Qed.

Lemma session_run_quiet s t : forallb quiet t = true → session_run s t = Some s.
Proof.
  induction t as [|ev t IH]; [reflexivity|]. simpl.
  intros [Hev Ht]%andb_true_iff. destruct ev; try discriminate Hev; simpl; auto.
Qed.

Lemma session_run_open t : forallb in_session t = true → session_run Open t = Some Open.
Proof.
  induction t as [|ev t IH]; [reflexivity|]. simpl.
  intros [Hev Ht]%andb_true_iff. destruct ev; try discriminate Hev; simpl; auto.
Qed.

(** ** The run as a whole *)

Section Run.

Variable w : world.

(** [main], stage by stage: the result and the events of every path. *)
Lemma main_eq g :
  main w g
  = match get_configuration g (stdin w) with
    | (Raise e, t1) => (Raise e, banner w ++ t1)
    | (Ret (false, g, _), t1) => (Ret (false, g), banner w ++ t1)
    | (Ret (true, g, _), t1) =>
    match load_private_key w g with
    | (Raise e, t2) => (Raise e, banner w ++ t1 ++ Print "" :: t2)
    | (Ret None, t2) =>
        (Ret (false, g),
         banner w ++ t1 ++ Print "" :: t2
         ++ [Print (nl +:+ "Cannot proceed without valid private key")])
    | (Ret (Some k), t2) =>
    match test_connection w g k with
    | (Raise e, t3) => (Raise e, banner w ++ t1 ++ Print "" :: t2 ++ t3)
    | (Ret None, t3) =>
        (Ret (false, g),
         banner w ++ t1 ++ Print "" :: t2 ++ t3
         ++ [Print (nl +:+ "Cannot proceed without valid connection")])
    | (Ret (Some conn), t3) =>
    match test_basic_queries w conn with
    | (Raise e, t4) => (Raise e, banner w ++ t1 ++ Print "" :: t2 ++ t3 ++ t4)
    | (Ret None, t4) =>
        (Ret (false, g),
         banner w ++ t1 ++ Print "" :: t2 ++ t3 ++ t4
         ++ [Print (nl +:+ "Cannot proceed without basic query access"); CloseConn])
    | (Ret (Some cur), t4) =>
    match test_monitoring_access w cur with
    | (Raise e, t5) => (Raise e, banner w ++ t1 ++ Print "" :: t2 ++ t3 ++ t4 ++ t5)
    | (Ret monitoring_ok, t5) =>
    match test_datadog_requirements w cur with
    | (Raise e, t6) =>
        (Raise e, banner w ++ t1 ++ Print "" :: t2 ++ t3 ++ t4 ++ t5 ++ t6)
    | (Ret requirements_ok, t6) =>
        (Ret (monitoring_ok && requirements_ok, g),
         banner w ++ t1 ++ Print "" :: t2 ++ t3 ++ t4 ++ t5 ++ t6
         ++ summary g (monitoring_ok && requirements_ok))
    end end end end end
    end.
Proof.
  unfold main, banner, summary.
  cbv [mbind M_bind bind emit mret M_ret ret print].
  destruct (get_configuration g (stdin w)) as [[[[[|] g1] rest]|e] t1];
    [|cbn [negb]; rewrite ?app_nil_r; reflexivity|reflexivity].
  cbn [negb].
  destruct (load_private_key w g1) as [[[k|]|e] t2]; [| reflexivity ..].
  destruct (test_connection w g1 k) as [[[conn|]|e] t3]; [| reflexivity ..].
  destruct (test_basic_queries w conn) as [[[cur|]|e] t4]; [| reflexivity ..].
  destruct (test_monitoring_access w cur) as [[m|e] t5]; [| reflexivity].
  destruct (test_datadog_requirements w cur) as [[r|e] t6]; [| reflexivity].
  destruct m, r; reflexivity.
Qed.

End Run.

Section Script.

Variable w : world.

(** The loader returns with one or two lines printed, or raises after the
    first one. *)
Lemma load_env_file_cases d environ :
  (∃ environ',
      load_env_file d environ
      = (Ret environ',
         match d with
         | Some _ => [Print "Loading environment variables from .env";
                      Print "Environment variables loaded"]
         | None => [Print "No .env file found, using interactive input or defaults"]
         end))
  ∨ (∃ e,
        load_env_file d environ
        = (Raise e, [Print "Loading environment variables from .env"])).
Proof.
  destruct d as [text|]; [|left; eexists; reflexivity].
  rewrite load_env_file_text.
  destruct (first_refused _); [right | left]; eexists; reflexivity.
Qed.

Lemma startup_events_cases :
  startup_events w = [Print "Loading environment variables from .env";
                      Print "Environment variables loaded"]
  ∨ startup_events w = [Print "No .env file found, using interactive input or defaults"]
  ∨ startup_events w = [Print "Loading environment variables from .env"].
Proof.
  unfold startup_events, events.
  destruct (load_env_file_cases (dot_env w) (environ0 w)) as [[environ' ->]|[e ->]];
    [destruct (dot_env w)|]; auto.
Qed.

(** A run ends while the module is loaded, or goes through [main]. *)
Lemma script_cases :
  (stage_environ w = None
   ∧ ∃ e, script w = (Raise e, [Print "Loading environment variables from .env"]))
  ∨ (stage_environ w = Some (startup_environ w)
     ∧ script w
       = match main w (startup_config w) with
         | (Ret (success, _), t) =>
             (Ret success,
              startup_events w ++ t
              ++ [Print (nl +:+ "Test completed at: " +:+ completed_at w)])
         | (Raise e, t) => (Raise e, startup_events w ++ t)
         end).
Proof.
  unfold script, startup_config, startup_environ, stage_environ, startup_events,
    outcome, events.
  destruct (load_env_file_cases (dot_env w) (environ0 w)) as [[environ' ->]|[e ->]].
  - right. split; [reflexivity|]. run_monad. cbn [fst snd from_option id].
    destruct (main w (module_config environ')) as [[[success g]|e] t]; reflexivity.
  - left. split; [reflexivity|]. exists e. reflexivity.
Qed.

Lemma stage_config_loaded :
  stage_environ w = Some (startup_environ w) →
  stage_config w
  = match outcome (get_configuration (startup_config w) (stdin w)) with
    | Ret (true, g, _) => Some g
    | _ => None
    end.
Proof. intros H. unfold stage_config. rewrite H. reflexivity. Qed.

Lemma stage_config_failed : stage_environ w = None → stage_config w = None.
Proof. intros H. unfold stage_config. rewrite H. reflexivity. Qed.

Lemma exit_status_stages :
  exit_status w
  = match monitoring_flag w, requirements_flag w with
    | Some true, Some true => 0
    | _, _ => 1
    end%Z.
Proof.
  unfold exit_status, monitoring_flag, requirements_flag, stage_cursor,
    stage_connection, stage_key.
  destruct script_cases as [[Hi [e0 He]]|[Hi He]]; rewrite He;
    [rewrite (stage_config_failed Hi); reflexivity|].
  rewrite (stage_config_loaded Hi). unfold outcome. rewrite main_eq.
  destruct (get_configuration (startup_config w) (stdin w)) as [[[[[|] g1] rest]|e] t1];
    [|reflexivity ..].
  cbn [fst mbind option_bind].
  destruct (load_private_key w g1) as [[[k|]|e] t2]; [|reflexivity ..].
  cbn [fst mbind option_bind].
  destruct (test_connection w g1 k) as [[[conn|]|e] t3]; [|reflexivity ..].
  cbn [fst mbind option_bind].
  destruct (test_basic_queries w conn) as [[[cur|]|e] t4]; [|reflexivity ..].
  cbn [fst mbind option_bind].
  destruct (test_monitoring_access w cur) as [[[|]|e] t5];
    destruct (test_datadog_requirements w cur) as [[[|]|e'] t6]; reflexivity.
Qed.

End Script.

(** C4.  The exit status is 0 exactly when the configuration was resolved,
    the key was loaded, the connection was opened, the identity query went
    through, and both the monitoring flag and the requirements flag are
    true; it is 1 in every other case.  A run that ends while [.env] is read
    resolves no configuration and is one of these other cases, as is a run
    that ends at the end of standard input. *)
Theorem exit_status_zero_iff_every_stage_passed w :
  (exit_status w = 0%Z
   ↔ is_Some (stage_config w) ∧ is_Some (stage_key w)
     ∧ is_Some (stage_connection w) ∧ is_Some (stage_cursor w)
     ∧ monitoring_flag w = Some true ∧ requirements_flag w = Some true)
  ∧ (exit_status w ≠ 0%Z → exit_status w = 1%Z).
Proof.
  rewrite exit_status_stages. split.
  - split.
    + intros H.
      assert (monitoring_flag w = Some true ∧ requirements_flag w = Some true)
        as [Hm Hr].
      { destruct (monitoring_flag w) as [[|]|], (requirements_flag w) as [[|]|];
          try discriminate H; auto. }
      pose proof Hm as Hcur. unfold monitoring_flag in Hcur.
      destruct (stage_cursor w) as [cur|] eqn:Ecur; [|discriminate Hcur].
      unfold stage_cursor in Ecur.
      destruct (stage_connection w) as [conn|] eqn:Econn; [|discriminate Ecur].
      unfold stage_connection in Econn.
      destruct (stage_config w) as [g|] eqn:Eg; [|discriminate Econn].
      destruct (stage_key w) as [k|] eqn:Ek; [|discriminate Econn].
      repeat split; try (eexists; reflexivity); assumption.
    + intros (_ & _ & _ & _ & -> & ->). reflexivity.
  - destruct (monitoring_flag w) as [[|]|], (requirements_flag w) as [[|]|];
      intros H; try reflexivity; contradiction H; reflexivity.
Qed.

Lemma exit_status_zero_iff_every_stage_passed_witness :
  is_Some (stage_config Sample.good) ∧ is_Some (stage_key Sample.good)
  ∧ is_Some (stage_connection Sample.good) ∧ is_Some (stage_cursor Sample.good)
  ∧ monitoring_flag Sample.good = Some true
  ∧ requirements_flag Sample.good = Some true.
Proof.
  exact (proj1 (proj1 (exit_status_zero_iff_every_stage_passed Sample.good)) eq_refl).
Defined.

(** ** A missing key file *)






(** ** The handler for [FileNotFoundError] *)

Ltac other_line :=
  let H := fresh in
  intros H; inversion H as [H']; vm_compute in H'; discriminate H'.

Ltac not_printed :=
  rewrite ?elem_of_app, ?elem_of_cons, ?elem_of_nil;
  let H := fresh in
  intros H; repeat (destruct H as [H|H]); try contradiction;
  try discriminate H; revert H; other_line.

Lemma read_bytes_present w path node e t :
  fs w path = Some node →
  read_bytes w path = (Raise e, t) →
  exn_class_of e = OtherError.
Proof.
  intros Hfs. unfold read_bytes. rewrite Hfs. destruct node as [data|size n m].
  - intros H. discriminate H.
  - intros H. injection H as <- _. reflexivity.
Qed.

(** C9.  The handler for [FileNotFoundError] in the key loader is never
    entered: neither of its two lines is ever printed.  The file is opened
    only after the check for its existence has passed (when the path does not
    exist the loader returns no key without opening or decoding anything),
    and with the file system unchanged since that check the opening raises no
    [FileNotFoundError]. *)
Theorem file_not_found_handler_unreachable w g :
  let t := events (load_private_key w g) in
  let path := PRIVATE_KEY_PATH g in
  (Print "Please update PRIVATE_KEY_PATH with your actual key file path" ∉ t)
  ∧ (Print ("Key file not found: " +:+ path) ∉ t)
  ∧ (fs w path = None →
     outcome (load_private_key w g) = Ret None
     ∧ (ReadFile path ∉ t) ∧ decoders_called t = [])
  ∧ (ReadFile path ∈ t →
     is_Some (fs w path)
     ∧ ∀ e t', read_bytes w path = (Raise e, t') → exn_class_of e = OtherError).
Proof.
  intros t path. subst t path.
  destruct (fs w (PRIVATE_KEY_PATH g)) as [[data|size n m]|] eqn:E.
  - rewrite (load_private_key_readable _ _ _ E). unfold events, outcome. cbn [fst snd].
    assert (∀ line,
      (∀ s, line ≠ "Checking for private key file: " +:+ s) →
      (∀ s, line ≠ "✅ Key file found (" +:+ s) →
      (∀ s, line ≠ "Loading private key from: " +:+ s) →
      line ≠ "Private key loaded successfully" →
      line ≠ "Key requires password but none provided" →
      line ≠ "Update PRIVATE_KEY_PASSWORD with your key password" →
      (∀ s, line ≠ "Invalid key format: " +:+ s) →
      (∀ s, line ≠ "Error loading key: " +:+ s) →
      Print line ∉ key_attempt w g data ++ key_report (decoded w g data)) as Hlines.
    { intros line H1 H2 H3 H4 H5 H6 H7 H8. unfold key_attempt.
      assert (∀ a b, Print a = Print b → a = b) as Hinj by (intros a b [= ->]; auto).
      rewrite !elem_of_app, !elem_of_cons, elem_of_nil.
      intros [Hin|Hin].
      - destruct Hin as [Hin|Hin].
        + repeat (destruct Hin as [Hin|Hin]); try discriminate Hin;
            try contradiction; apply Hinj in Hin; subst line;
            first [ eapply H1; reflexivity | eapply H2; reflexivity
                  | eapply H3; reflexivity ].
        + destruct (load_der_private_key w data (PRIVATE_KEY_PASSWORD g));
            rewrite ?elem_of_cons, ?elem_of_nil in Hin;
            repeat (destruct Hin as [Hin|Hin]); try discriminate Hin; contradiction.
      - destruct (decoded w g data) as [k|n m|n m]; cbn [key_report] in Hin.
        + rewrite ?elem_of_cons, ?elem_of_nil in Hin.
          repeat (destruct Hin as [Hin|Hin]); try contradiction.
          apply Hinj in Hin. contradiction.
        + destruct (Py.contains "password" (Py.lower m));
            rewrite ?elem_of_cons, ?elem_of_nil in Hin;
            repeat (destruct Hin as [Hin|Hin]); try contradiction;
            apply Hinj in Hin; subst line;
            first [ contradiction | eapply H7; reflexivity ].
        + rewrite ?elem_of_cons, ?elem_of_nil in Hin.
          repeat (destruct Hin as [Hin|Hin]); try contradiction.
          apply Hinj in Hin. subst line. eapply H8; reflexivity. }
    split; [|split; [|split]].
    + apply Hlines; try discriminate; intros s; other_line.
    + apply Hlines; try discriminate; intros s; other_line.
    + intros H. discriminate H.
    + intros _. split; [eexists; reflexivity|].
      intros e t'. apply (read_bytes_present _ _ _ _ _ E).
  - rewrite (load_private_key_unreadable _ _ _ _ _ E). unfold events, outcome.
    cbn [fst snd]. split; [|split; [|split]].
    + not_printed.
    + not_printed.
    + intros H. discriminate H.
    + intros _. split; [eexists; reflexivity|].
      intros e t'. apply (read_bytes_present _ _ _ _ _ E).
  - rewrite (load_private_key_absent _ _ E). unfold events, outcome. cbn [fst snd].
    split; [|split; [|split]].
    + not_printed.
    + not_printed.
    + intros _. split; [reflexivity|]. split; [not_printed | reflexivity].
    + intros H. exfalso. revert H. not_printed.
Qed.

Lemma file_not_found_handler_unreachable_witness :
  outcome (load_private_key (Sample.with_fs (λ _, None)) Sample.config) = Ret None
  ∧ (ReadFile "rsa_key.p8"
       ∉ events (load_private_key (Sample.with_fs (λ _, None)) Sample.config))
  ∧ decoders_called
      (events (load_private_key (Sample.with_fs (λ _, None)) Sample.config)) = [].
Proof.
  exact (proj1 (proj2 (proj2 (file_not_found_handler_unreachable
                                (Sample.with_fs (λ _, None)) Sample.config)))
           eq_refl).
Defined.

(** ** The session is closed *)

Lemma session_run_closed t : ∀ s,
  session_run s t = Some Closed → s = Closed ∨ CloseConn ∈ t.
Proof.
  induction t as [|ev t IH]; intros s; simpl.
  - intros [= ->]. auto.
  - destruct (session_step s ev) as [s'|] eqn:E; [|discriminate].
    intros H. destruct (IH _ H) as [->|Hin].
    + destruct ev as [| | | | [|] | | | |], s; simpl in E; try discriminate E;
        try (injection E as E; discriminate E); auto;
        right; apply list_elem_of_here.
    + right. apply list_elem_of_further, Hin.
Qed.

Lemma session_run_opened t : ∀ s',
  session_run NoSession t = Some s' → s' = NoSession ∨ Connect true ∈ t.
Proof.
  induction t as [|ev t IH]; intros s'; simpl.
  - intros [= <-]. auto.
  - destruct ev as [| | | | [|] | | | |]; simpl; try discriminate;
      try (intros H; destruct (IH _ H); [auto | right; apply list_elem_of_further; auto]).
    intros _. right. apply list_elem_of_here.
Qed.

Lemma session_run_stays t : ∀ s,
  s ≠ NoSession → session_run s t ≠ Some NoSession.
Proof.
  induction t as [|ev t IH]; intros s Hs; simpl; [congruence|].
  destruct (session_step s ev) as [s'|] eqn:E; [|discriminate].
  apply IH. destruct ev as [| | | | [|] | | | |], s; simpl in E;
    try discriminate E; try congruence; injection E as <-; discriminate.
Qed.

Lemma session_run_untouched t :
  session_run NoSession t = Some NoSession →
  ∀ ev, ev ∈ t → quiet ev = true ∨ ev = Connect false.
Proof.
  induction t as [|ev t IH]; simpl; intros H ev' Hin.
  - apply elem_of_nil in Hin. contradiction.
  - assert (session_step NoSession ev = Some NoSession) as Hev.
    { destruct ev as [| | | | [|] | | | |]; simpl in *; try discriminate H; auto.
      exfalso. exact (session_run_stays t Open ltac:(discriminate) H). }
    rewrite Hev in H.
    apply elem_of_cons in Hin as [->|Hin]; [|exact (IH H _ Hin)].
    destruct ev as [| | | | [|] | | | |]; simpl in *; try discriminate Hev; auto.
Qed.

Ltac run_session :=
  repeat first
    [ rewrite session_run_app
    | rewrite session_run_quiet by assumption
    | rewrite session_run_open by assumption
    | progress cbn [session_run session_step banner summary connection_intro
                    connection_failure app fst snd mbind option_bind] ].

Lemma script_session w :
  session_run NoSession (events (script w))
  = Some (match stage_connection w with Some _ => Closed | None => NoSession end).
Proof.
  unfold stage_connection, stage_key.
  destruct (script_cases w) as [[Hi [e0 He]]|[Hi He]]; rewrite He;
    [rewrite (stage_config_failed w Hi); reflexivity|].
  rewrite (stage_config_loaded w Hi). unfold outcome, events. rewrite main_eq.
  assert (forallb quiet (startup_events w) = true) as Hs
    by (destruct (startup_events_cases w) as [-> | [-> | ->]]; reflexivity).
  pose proof (get_configuration_quiet (startup_config w) (stdin w)) as Hq1.
  unfold emits, events in Hq1.
  destruct (get_configuration (startup_config w) (stdin w))
    as [[[[[|] g1] rest]|e] t1]; cbn [fst snd mbind option_bind] in *;
    [|run_session; reflexivity ..].
  pose proof (load_private_key_quiet w g1) as Hq2.
  destruct (load_private_key_returns w g1) as [ko [t2 E2]].
  unfold emits, events in Hq2. rewrite E2 in *. cbn [fst snd] in *.
  destruct ko as [k|]; [|run_session; reflexivity].
  cbn [mbind option_bind]. rewrite test_connection_eq.
  destruct (connector w (connect_args_of g1 k)) as [conn|e];
    [|run_session; reflexivity].
  pose proof (test_basic_queries_in_session w conn) as Hq4.
  destruct (test_basic_queries_returns w conn) as [oc [t4 E4]].
  unfold emits, events in Hq4. rewrite E4 in *. cbn [fst snd] in *.
  destruct oc as [cur|]; [|run_session; reflexivity].
  pose proof (emits_weaken _ _ _ querying_in_session
                (test_monitoring_access_querying w cur)) as Hq5.
  pose proof (emits_weaken _ _ _ querying_in_session
                (test_datadog_requirements_querying w cur)) as Hq6.
  destruct (test_monitoring_access_returns w cur) as [m [t5 E5]].
  destruct (test_datadog_requirements_returns w cur) as [r [t6 E6]].
  unfold emits, events in Hq5, Hq6. rewrite E5, E6 in *. cbn [fst snd] in *.
  run_session. destruct (m && r); reflexivity.
Qed.

(** C8.  On every path the session, once opened, is closed before the run
    ends, and is used only while it is open: read as a protocol, the events of
    a run end with the session closed when the connection was opened (the
    identity query failing or not) and with no session otherwise, in which
    case the run touched no session at all.  The paths that end before the
    connection include the run that ends while [.env] is read. *)
Theorem session_closed_on_every_path w :
  let t := events (script w) in
  session_run NoSession t
  = Some (match stage_connection w with Some _ => Closed | None => NoSession end)
  ∧ (is_Some (stage_connection w) → Connect true ∈ t ∧ CloseConn ∈ t)
  ∧ (stage_connection w = None →
     ∀ ev, ev ∈ t → quiet ev = true ∨ ev = Connect false).
Proof.
  intros t. subst t. pose proof (script_session w) as H.
  split; [exact H|]. split.
  - intros [conn Hc]. rewrite Hc in H. split.
    + destruct (session_run_opened _ _ H) as [Hs|Hin]; [discriminate Hs | exact Hin].
    + destruct (session_run_closed _ _ H) as [Hs|Hin]; [discriminate Hs | exact Hin].
  - intros Hc. rewrite Hc in H. apply session_run_untouched, H.
Qed.

(** ** The requirement probes *)

Section Requirements.

Variable w : world.
Variable cur : cursor.

Lemma requirement_step_eq all_passed t :
  requirement_step w cur all_passed t
  = (Ret (all_passed && probe_passes w t), probe_events w t).
Proof.
  unfold requirement_step, execute, probe_events, probe_passes, probe_line.
  destruct (server w (query t)) as [[|[|c0 [|v r]] rows]|e];
    cbv [mbind M_bind bind emit mret M_ret ret print raise lift try_except
         fetchone head item row_item lookup list_lookup exn_msg];
    rewrite ?andb_true_r, ?andb_false_r; reflexivity.
Qed.

Lemma requirements_loop_eq tests : ∀ all_passed,
  requirements_loop w cur all_passed tests
  = (Ret (all_passed && forallb (probe_passes w) tests), flat_map (probe_events w) tests).
Proof.
  induction tests as [|t tests IH]; intros all_passed.
  - cbn. rewrite andb_true_r. reflexivity.
  - cbn [requirements_loop forallb flat_map]. run_monad.
    rewrite requirement_step_eq, IH, andb_assoc. reflexivity.
Qed.

Lemma test_datadog_requirements_eq :
  test_datadog_requirements w cur
  = (Ret (forallb (probe_passes w) requirements_tests),
     Print (nl +:+ "Testing specific Datadog monitoring requirements...")
     :: flat_map (probe_events w) requirements_tests).
Proof.
  unfold test_datadog_requirements. run_monad. rewrite requirements_loop_eq.
  reflexivity.
Qed.

End Requirements.

(** C3.  When a requirement probe raises, that probe is reported as failed
    under its own name and the flag of the group is false, while every probe
    of the group is still executed, in order, and prints its own line: the
    count it read, or its own failure. *)
Theorem failing_probe_leaves_the_others_running w cur failing e :
  failing ∈ requirements_tests →
  server w (query failing) = Raise e →
  let run := test_datadog_requirements w cur in
  outcome run = Ret false
  ∧ events run
    = Print (nl +:+ "Testing specific Datadog monitoring requirements...")
      :: flat_map (λ t, [Execute (query t); Print (probe_line w t)]) requirements_tests
  ∧ probe_line w failing = name failing +:+ ": Failed - " +:+ exn_msg e
  ∧ (∀ t c0 v rest more,
        server w (query t) = Ret ((c0 :: v :: rest) :: more) →
        probe_line w t = name t +:+ ": " +:+ cell_str v +:+ " records available")
  ∧ (∀ t, t ∈ requirements_tests →
          Execute (query t) ∈ events run ∧ Print (probe_line w t) ∈ events run).
Proof.
  intros Hin He run. subst run. rewrite test_datadog_requirements_eq.
  unfold outcome, events. cbn [fst snd]. repeat split.
  - f_equal. apply not_true_is_false. intros Hall.
    apply list_elem_of_In in Hin.
    pose proof (proj1 (forallb_forall _ _) Hall _ Hin) as Hp.
    unfold probe_passes in Hp. rewrite He in Hp. discriminate Hp.
  - unfold probe_line. rewrite He. reflexivity.
  - intros t c0 v rest more Ht. unfold probe_line. rewrite Ht. reflexivity.
  - apply list_elem_of_further, list_elem_of_In, in_flat_map.
    exists t. split; [apply list_elem_of_In; assumption | left; reflexivity].
  - apply list_elem_of_further, list_elem_of_In, in_flat_map.
    exists t. split; [apply list_elem_of_In; assumption | right; left; reflexivity].
Qed.

(** ** The monitoring group *)

Section Monitoring.

Variable w : world.

Lemma silent_no_execute t pre q post :
  forallb silent t = true → t ≠ pre ++ Execute q :: post.
Proof.
  intros H ->. rewrite forallb_app in H. apply andb_true_iff in H as [_ H].
  discriminate H.
Qed.

Lemma ends_silent {A} (m : M A) : emits silent m → ends_at_refusal w m.
Proof.
  intros H pre q post e Hev _. exfalso.
  exact (silent_no_execute _ _ _ _ H Hev).
Qed.

Lemma ends_execute c sql : ends_at_refusal w (execute w c sql).
Proof.
  intros pre q post e. unfold execute, events, outcome. run_monad.
  destruct (server w sql) as [rows|e'] eqn:E; cbn [fst snd];
    (destruct pre as [|ev pre]; [|destruct pre; discriminate]);
    intros [= <- <-]; rewrite E; intros [= <-]; auto.
Qed.

Lemma ends_bind {A B} (m : M A) (f : A → M B) :
  ends_at_refusal w m → (∀ a, ends_at_refusal w (f a)) → ends_at_refusal w (m ≫= f).
Proof.
  intros Hm Hf pre q post e. unfold mbind, M_bind, bind.
  destruct m as [[a|e'] t1] eqn:Em.
  - specialize (Hf a). destruct (f a) as [r2 t2] eqn:Ef.
    unfold events, outcome in *. cbn [fst snd] in *. intros Hev Hq.
    apply app_eq_app in Hev as [l [[H1 H2]|[H1 H2]]].
    + destruct l as [|ev l].
      * rewrite app_nil_l in H2. symmetry in H2.
        exact (Hf [] q post e H2 Hq).
      * injection H2 as <- H2.
        destruct (Hm pre q l e H1 Hq) as [_ Habs]. discriminate Habs.
    + exact (Hf l q post e H2 Hq).
  - unfold events, outcome in *. cbn [fst snd] in *. intros Hev Hq.
    destruct (Hm pre q post e Hev Hq) as [-> He]. injection He as ->. auto.
Qed.

Lemma ends_for_each {A} (l : list A) body :
  (∀ x, ends_at_refusal w (body x)) → ends_at_refusal w (for_each l body).
Proof.
  intros H. induction l as [|x l IH]; [apply ends_silent; reflexivity|].
  cbn [for_each]. apply ends_bind; auto.
Qed.

Ltac ends_step :=
  first
    [ apply ends_execute
    | apply ends_for_each; intros ?
    | apply ends_bind; [|intros ?]
    | apply ends_silent;
      first [ apply emits_print; reflexivity | apply emits_ret | apply emits_lift
            | apply emits_raise ]
    | match goal with
      | |- ends_at_refusal _ (match ?x with _ => _ end) => destruct x
      | |- ends_at_refusal _ (item ?r _) => unfold item
      | |- ends_at_refusal _ (row_item _ _) => unfold row_item
      | |- ends_at_refusal _ (format_2f _) => unfold format_2f
      end ].

(** In the monitoring group the first refused statement is the last one
    executed: the handler's lines follow it and the flag is false. *)
Lemma monitoring_stops_at_refusal c pre q post e :
  events (test_monitoring_access w c) = pre ++ Execute q :: post →
  server w q = Raise e →
  post = monitoring_failure e ∧ outcome (test_monitoring_access w c) = Ret false.
Proof.
  unfold test_monitoring_access.
  match goal with
  | |- context [try_except ?b ?h] => set (body := b); set (handler := h)
  end.
  assert (ends_at_refusal w body) as Hbody
    by (subst body; unfold fetchall; repeat ends_step).
  clearbody body. unfold ends_at_refusal, try_except, events, outcome in *.
  destruct body as [[a|e'] t]; cbn [fst snd] in *; intros Hev Hq.
  - destruct (Hbody pre q post e Hev Hq) as [_ Habs]. discriminate Habs.
  - subst handler. cbn in Hev. cbn [fst snd].
    apply app_eq_app in Hev as [l [[H1 H2]|[H1 H2]]].
    + destruct l as [|ev l].
      * rewrite app_nil_l in H2. discriminate H2.
      * injection H2 as <- H2.
        destruct (Hbody pre q l e H1 Hq) as [-> He]. injection He as ->.
        rewrite app_nil_l in H2. auto.
    + exfalso. refine (silent_no_execute _ _ _ _ _ H2). reflexivity.
Qed.

End Monitoring.

(** ** The two groups side by side *)

Lemma events_print_bind {A} line (f : unit → M A) :
  events (print line ≫= f) = Print line :: events (f tt).
Proof. unfold events, print, emit. run_monad. destruct (f tt). reflexivity. Qed.

Lemma events_execute_bind {A} w c sql (f : list row → M A) :
  ∃ post, events (execute w c sql ≫= f) = Execute sql :: post.
Proof.
  unfold events, execute, lift, emit. run_monad.
  destruct (server w sql) as [rows|e]; [destruct (f rows)|]; eexists; reflexivity.
Qed.

Lemma events_try_except {A} (m : M A) h :
  ∃ post, events (try_except m h) = events m ++ post.
Proof.
  unfold events, try_except. destruct m as [[a|e] t]; cbn [snd].
  - exists []. rewrite app_nil_r. reflexivity.
  - destruct (h e) as [r t']. exists t'. reflexivity.
Qed.

(** The monitoring group always starts with the query-history count. *)
Lemma monitoring_first_query w c :
  ∃ post,
    events (test_monitoring_access w c)
    = Print (nl +:+ "Testing monitoring access (Account Usage views)...")
      :: Print "Testing query history access..."
      :: Execute sql_query_history :: post.
Proof.
  unfold test_monitoring_access.
  match goal with |- context [try_except ?b ?h] =>
    destruct (events_try_except b h) as [post ->] end.
  rewrite !events_print_bind.
  match goal with |- context [events (execute w c ?q ≫= ?f)] =>
    destruct (events_execute_bind w c q f) as [post' ->] end.
  eexists. reflexivity.
Qed.

Lemma monitoring_depends_on_its_queries w w' c :
  (∀ q, q ∈ monitoring_queries → server w q = server w' q) →
  test_monitoring_access w c = test_monitoring_access w' c.
Proof.
  intros H.
  assert (∀ q, In q monitoring_queries → server w q = server w' q) as H'
    by (intros q Hq; apply H, list_elem_of_In, Hq).
  unfold test_monitoring_access, execute.
  rewrite (H' sql_query_history), (H' sql_warehouse_load), (H' sql_storage),
    (H' sql_credits), (H' sql_query_perf) by (simpl; auto 10).
  reflexivity.
Qed.

Lemma probes_depend_on_their_queries w w' tests :
  (∀ t, t ∈ tests → server w (query t) = server w' (query t)) →
  forallb (probe_passes w) tests = forallb (probe_passes w') tests
  ∧ flat_map (probe_events w) tests = flat_map (probe_events w') tests.
Proof.
  induction tests as [|t tests IH]; intros H; [split; reflexivity|].
  destruct IH as [IH1 IH2].
  { intros t' Ht'. apply H, list_elem_of_further, Ht'. }
  cbn [forallb flat_map]. rewrite IH1, IH2.
  unfold probe_passes, probe_events, probe_line.
  rewrite (H t (list_elem_of_here _ _)). split; reflexivity.
Qed.

Lemma requirements_depend_on_their_probes w w' c :
  (∀ t, t ∈ requirements_tests → server w (query t) = server w' (query t)) →
  test_datadog_requirements w c = test_datadog_requirements w' c.
Proof.
  intros H. rewrite !test_datadog_requirements_eq.
  destruct (probes_depend_on_their_queries w w' _ H) as [-> ->]. reflexivity.
Qed.

Lemma groups_share_no_statement t :
  t ∈ requirements_tests → query t ∉ monitoring_queries.
Proof.
  intros Ht Hq. apply list_elem_of_In in Ht. apply list_elem_of_In in Hq.
  assert (forallb (λ t, negb (existsb (String.eqb (query t)) monitoring_queries))
            requirements_tests = true) as Hall by (vm_compute; reflexivity).
  pose proof (proj1 (forallb_forall _ _) Hall _ Ht) as Hn.
  apply negb_true_iff in Hn.
  assert (existsb (String.eqb (query t)) monitoring_queries = true) as Hy.
  { apply existsb_exists. exists (query t). split; [exact Hq | apply String.eqb_refl]. }
  congruence.
Qed.

(** A probe that raises: the flag, its line, and the statements executed. *)
Lemma requirements_with_failure w c failing e :
  failing ∈ requirements_tests →
  server w (query failing) = Raise e →
  outcome (test_datadog_requirements w c) = Ret false
  ∧ (Print (name failing +:+ ": Failed - " +:+ exn_msg e)
       ∈ events (test_datadog_requirements w c))
  ∧ ∀ t, t ∈ requirements_tests → Execute (query t) ∈ events (test_datadog_requirements w c).
Proof.
  intros Hin He. rewrite test_datadog_requirements_eq.
  unfold outcome, events. cbn [fst snd]. repeat split.
  - f_equal. apply not_true_is_false. intros Hall.
    apply list_elem_of_In in Hin.
    pose proof (proj1 (forallb_forall _ _) Hall _ Hin) as Hp.
    unfold probe_passes in Hp. rewrite He in Hp. discriminate Hp.
  - apply list_elem_of_further, list_elem_of_In, in_flat_map.
    exists failing. split; [apply list_elem_of_In; assumption|].
    right; left. unfold probe_line. rewrite He. reflexivity.
  - intros t Ht. apply list_elem_of_further, list_elem_of_In, in_flat_map.
    exists t. split; [apply list_elem_of_In; assumption | left; reflexivity].
Qed.

(** C1, as stated, fails for the monitoring group: when its first query is
    refused, none of its other four queries is executed. *)
Lemma monitoring_group_stops_at_first_error :
  ¬ isolated_per_query Sample.history_denied monitoring_queries
      (test_monitoring_access Sample.history_denied Cursor).
Proof.
  intros H.
  specialize (H sql_query_history Sample.denied (list_elem_of_here _ _) eq_refl
                sql_warehouse_load
                (list_elem_of_further _ _ _ (list_elem_of_here _ _))).
  apply list_elem_of_In in H. vm_compute in H.
  repeat (destruct H as [H|H]; [discriminate H|]). exact H.
Qed.

(** C1, amended.  In the requirements group every probe is isolated: when a
    probe raises, the error is caught and reported under that probe's name,
    every probe of the group is still executed, and the requirements flag is
    false.  The monitoring group has one handler for all its queries: its
    first query is always executed, and when a query of the group raises, the
    error is caught, the handler reports it with the exception's text, no
    further query of the group is executed, and the monitoring flag is
    false.  Either flag depends only on the answers to the statements of its
    own group, and the two groups share no statement. *)
Theorem query_errors_are_caught_group_by_group :
  (∀ w cur failing e,
      failing ∈ requirements_tests →
      server w (query failing) = Raise e →
      outcome (test_datadog_requirements w cur) = Ret false
      ∧ (Print (name failing +:+ ": Failed - " +:+ exn_msg e)
           ∈ events (test_datadog_requirements w cur))
      ∧ ∀ t, t ∈ requirements_tests →
             Execute (query t) ∈ events (test_datadog_requirements w cur))
  ∧ (∀ w cur, ∃ post,
        events (test_monitoring_access w cur)
        = Print (nl +:+ "Testing monitoring access (Account Usage views)...")
          :: Print "Testing query history access..."
          :: Execute sql_query_history :: post)
  ∧ (∀ w cur pre q post e,
        events (test_monitoring_access w cur) = pre ++ Execute q :: post →
        server w q = Raise e →
        outcome (test_monitoring_access w cur) = Ret false
        ∧ post
          = [Print ("Monitoring access test failed: " +:+ exn_msg e);
             Print "This may indicate insufficient permissions for DATADOG_ROLE";
             Print "Ensure role has IMPORTED PRIVILEGES on SNOWFLAKE database"])
  ∧ (∀ w w' cur,
        (∀ t, t ∈ requirements_tests → server w (query t) = server w' (query t)) →
        test_datadog_requirements w cur = test_datadog_requirements w' cur)
  ∧ (∀ w w' cur,
        (∀ q, q ∈ monitoring_queries → server w q = server w' q) →
        test_monitoring_access w cur = test_monitoring_access w' cur)
  ∧ (∀ t, t ∈ requirements_tests → query t ∉ monitoring_queries).
Proof.
  split; [|split; [|split; [|split; [|split]]]].
  - apply requirements_with_failure.
  - apply monitoring_first_query.
  - intros w cur pre q post e Hev Hq.
    destruct (monitoring_stops_at_refusal w cur pre q post e Hev Hq) as [-> ->].
    split; reflexivity.
  - apply requirements_depend_on_their_probes.
  - apply monitoring_depends_on_its_queries.
  - apply groups_share_no_statement.
Qed.

Lemma query_errors_are_caught_group_by_group_witness :
  outcome (test_monitoring_access Sample.history_denied Cursor) = Ret false
  ∧ outcome (test_datadog_requirements Sample.copy_history_denied Cursor) = Ret false.
Proof.
  split.
  - exact (proj1 (proj1 (proj2 (proj2 query_errors_are_caught_group_by_group))
                    Sample.history_denied Cursor
                    [Print (nl +:+ "Testing monitoring access (Account Usage views)...");
                     Print "Testing query history access..."]
                    sql_query_history
                    [Print "Monitoring access test failed: SQL access control error";
                     Print "This may indicate insufficient permissions for DATADOG_ROLE";
                     Print "Ensure role has IMPORTED PRIVILEGES on SNOWFLAKE database"]
                    Sample.denied eq_refl eq_refl)).
  - exact (proj1 (proj1 query_errors_are_caught_group_by_group
                    Sample.copy_history_denied Cursor
                    (List.nth 3 requirements_tests (Test "" "")) Sample.denied
                    (list_elem_of_further _ _ _
                       (list_elem_of_further _ _ _
                          (list_elem_of_further _ _ _ (list_elem_of_here _ _))))
                    eq_refl)).
Defined.

Lemma failing_probe_leaves_the_others_running_witness :
  outcome (test_datadog_requirements Sample.copy_history_denied Cursor) = Ret false
  ∧ events (test_datadog_requirements Sample.copy_history_denied Cursor)
    = [Print (nl +:+ "Testing specific Datadog monitoring requirements...");
       Execute (query (List.nth 0 requirements_tests (Test "" "")));
       Print "1.A - CPU & Memory Utilization: 7 records available";
       Execute (query (List.nth 1 requirements_tests (Test "" "")));
       Print "1.B - Storage Utilization: 7 records available";
       Execute (query (List.nth 2 requirements_tests (Test "" "")));
       Print "1.C - Query Execution Time: 7 records available";
       Execute (query (List.nth 3 requirements_tests (Test "" "")));
       Print "2.A - Data Loading Rate: Failed - SQL access control error";
       Execute (query (List.nth 4 requirements_tests (Test "" "")));
       Print "2.B - Warehouse Usage: 7 records available"].
Proof.
  pose proof (failing_probe_leaves_the_others_running
                Sample.copy_history_denied Cursor
                (List.nth 3 requirements_tests (Test "" "")) Sample.denied
                (list_elem_of_further _ _ _
                   (list_elem_of_further _ _ _
                      (list_elem_of_further _ _ _ (list_elem_of_here _ _))))
                eq_refl) as H.
  split; [exact (proj1 H) | exact (proj1 (proj2 H))].
Defined.

Lemma session_closed_on_every_path_witness :
  (Connect true ∈ events (script Sample.good))
  ∧ (CloseConn ∈ events (script Sample.good)).
Proof.
  exact (proj1 (proj2 (session_closed_on_every_path Sample.good))
           (ex_intro _ Connection eq_refl)).
Defined.

(** * Further properties of the script *)

(** ** The order of the stages *)

Lemma forallb_weaken (P Q : event → bool) t :
  (∀ ev, P ev = true → Q ev = true) → forallb P t = true → forallb Q t = true.
Proof.
  intros HPQ. induction t as [|ev t IH]; [reflexivity|]. simpl.
  intros [Hev Ht]%andb_true_iff. rewrite (HPQ _ Hev), (IH Ht). reflexivity.
Qed.

Lemma talking_quiet ev : talking ev = true → quiet ev = true.
Proof. destruct ev; simpl; congruence. Qed.

Lemma quiet_before_session ev : quiet ev = true → before_session ev = true.
Proof. destruct ev; simpl; congruence. Qed.

Lemma before_session_identity_only ev :
  before_session ev = true → identity_only ev = true.
Proof. destruct ev as [| | | | [|] | | | |]; simpl; congruence. Qed.

Lemma input_talking prompt stdin : emits talking (input prompt stdin).
Proof. unfold input. solve_emits. Qed.

Lemma get_configuration_talking g stdin : emits talking (get_configuration g stdin).
Proof.
  unfold get_configuration, print_config.
  destruct (env_loaded g); [solve_emits|].
  repeat (first [apply input_talking | emits_step]).
Qed.

Lemma test_basic_queries_identity_only w conn :
  emits identity_only (test_basic_queries w conn).
Proof.
  unfold test_basic_queries, open_cursor, execute, item, row_item.
  solve_emits.
Qed.

Lemma startup_events_talking w : forallb talking (startup_events w) = true.
Proof. destruct (startup_events_cases w) as [-> | [-> | ->]]; reflexivity. Qed.

Ltac all_events :=
  repeat first
    [ rewrite forallb_app
    | progress cbn [forallb app banner summary connection_intro connection_failure
                    fst snd]
    | match goal with
      | H : forallb ?P ?t = true |- context [forallb ?P ?t] => rewrite H
      end ];
  reflexivity.

(** X1.  The stages of a run depend on each other in a line: while the
    configuration is not resolved the run only prints and prompts; without a
    key it reads and decodes at most the key file and never calls the
    connector; without a connection it opens no cursor and executes nothing;
    and when the identity query did not go through it executes no other
    statement and closes no cursor. *)
Theorem stages_run_in_order w :
  let t := events (script w) in
  (stage_config w = None → forallb talking t = true)
  ∧ (stage_key w = None → forallb quiet t = true)
  ∧ (stage_connection w = None → forallb before_session t = true)
  ∧ (stage_cursor w = None → forallb identity_only t = true).
Proof.
  intros t. subst t.
  unfold stage_cursor, stage_connection, stage_key.
  destruct (script_cases w) as [[Hi [e0 He]]|[Hi He]]; rewrite He;
    [rewrite (stage_config_failed w Hi); repeat split|].
  rewrite (stage_config_loaded w Hi). unfold outcome, events. rewrite main_eq.
  pose proof (startup_events_talking w) as Hs.
  pose proof (forallb_weaken _ _ _ talking_quiet Hs) as Hs'.
  pose proof (forallb_weaken _ _ _ quiet_before_session Hs') as Hs''.
  pose proof (forallb_weaken _ _ _ before_session_identity_only Hs'') as Hs'''.
  pose proof (get_configuration_talking (startup_config w) (stdin w)) as H1.
  unfold emits, events in H1.
  destruct (get_configuration (startup_config w) (stdin w))
    as [[[[[|] g1] rest]|e] t1]; cbn [fst snd mbind option_bind] in *.
  all: pose proof (forallb_weaken _ _ _ talking_quiet H1) as H1'.
  all: pose proof (forallb_weaken _ _ _ quiet_before_session H1') as H1''.
  all: pose proof (forallb_weaken _ _ _ before_session_identity_only H1'') as H1'''.
  2, 3: repeat split; intros _; all_events.
  pose proof (load_private_key_quiet w g1) as H2.
  destruct (load_private_key_returns w g1) as [ko [t2 E2]].
  unfold emits, events in H2. rewrite E2 in *. cbn [fst snd] in *.
  pose proof (forallb_weaken _ _ _ quiet_before_session H2) as H2'.
  pose proof (forallb_weaken _ _ _ before_session_identity_only H2') as H2''.
  destruct ko as [k|]; cbn [mbind option_bind];
    [|repeat split; intros H; try discriminate H; all_events].
  rewrite test_connection_eq.
  destruct (connector w (connect_args_of g1 k)) as [conn|e]; cbn [fst snd];
    [|repeat split; intros H; try discriminate H; all_events].
  pose proof (test_basic_queries_identity_only w conn) as H4.
  destruct (test_basic_queries_returns w conn) as [oc [t4 E4]].
  unfold emits, events in H4. rewrite E4 in *. cbn [fst snd] in *.
  destruct oc as [cur|];
    [|repeat split; intros H; try discriminate H; all_events].
  destruct (test_monitoring_access_returns w cur) as [m [t5 ->]].
  destruct (test_datadog_requirements_returns w cur) as [r [t6 ->]].
  cbn [fst snd]. repeat split; intros H;
    cbn [mbind option_bind] in H; rewrite ?E4 in H; discriminate H.
Qed.

Lemma stages_run_in_order_witness :
  forallb quiet (events (script Sample.wrong_password)) = true
  ∧ forallb identity_only (events (script Sample.wrong_password)) = true.
Proof.
  pose proof (stages_run_in_order Sample.wrong_password) as H.
  split.
  - exact (proj1 (proj2 H) eq_refl).
  - exact (proj2 (proj2 (proj2 H)) eq_refl).
Defined.

(** ** The summary line *)



Section SuccessLine.

Variable w : world.









End SuccessLine.




(** ** The connector *)

Lemma no_connect_filter (P : event → bool) t :
  (∀ ev, P ev = true → is_connect ev = false) →
  forallb P t = true → List.filter is_connect t = [].
Proof.
  intros HP. induction t as [|ev t IH]; [reflexivity|]. simpl.
  intros [Hev Ht]%andb_true_iff. rewrite (HP _ Hev). exact (IH Ht).
Qed.

Lemma quiet_no_connect ev : quiet ev = true → is_connect ev = false.
Proof. destruct ev; simpl; congruence. Qed.

Lemma in_session_no_connect ev : in_session ev = true → is_connect ev = false.
Proof. destruct ev; simpl; congruence. Qed.

Ltac connect_calls :=
  repeat first
    [ rewrite List.filter_app
    | progress cbn [List.filter app banner summary connection_intro connection_failure
                    fst snd is_connect]
    | match goal with
      | H : List.filter is_connect ?t = [] |- context [List.filter is_connect ?t] =>
          rewrite H
      end
    | progress rewrite ?app_nil_r, ?app_nil_l ].

(** X3.  The connector is called at most once in a run, never again after
    it has refused: it is called exactly when a key was loaded, with the
    resolved user, account, role, warehouse and database and with that key,
    and the connection stage succeeds exactly when that one call returns a
    connection. *)
Theorem connector_called_at_most_once w :
  List.filter is_connect (events (script w))
  = match stage_key w, stage_connection w with
    | Some _, Some _ => [Connect true]
    | Some _, None => [Connect false]
    | None, _ => []
    end
  ∧ ∀ g k, stage_config w = Some g → stage_key w = Some k →
           stage_connection w
           = match connector w (connect_args_of g k) with
             | Ret conn => Some conn
             | Raise _ => None
             end.
Proof.
  unfold stage_connection, stage_key.
  destruct (script_cases w) as [[Hi [e0 He]]|[Hi He]]; rewrite He;
    [rewrite (stage_config_failed w Hi);
     split; [reflexivity | intros g k H; discriminate H]|].
  rewrite (stage_config_loaded w Hi). unfold outcome, events. rewrite main_eq.
  assert (List.filter is_connect (startup_events w) = []) as Hs
    by (destruct (startup_events_cases w) as [-> | [-> | ->]]; reflexivity).
  pose proof (no_connect_filter _ _ quiet_no_connect
                (get_configuration_quiet (startup_config w) (stdin w))) as H1.
  unfold events in H1.
  destruct (get_configuration (startup_config w) (stdin w))
    as [[[[[|] g1] rest]|e] t1]; cbn [fst snd mbind option_bind] in *;
    [|split; [connect_calls; reflexivity | intros g k H; discriminate H] ..].
  pose proof (no_connect_filter _ _ quiet_no_connect (load_private_key_quiet w g1)) as H2.
  unfold events in H2.
  destruct (load_private_key_returns w g1) as [ko [t2 E2]].
  rewrite E2 in *. cbn [fst snd] in *.
  destruct ko as [k|]; cbn [mbind option_bind];
    [|split; [connect_calls; reflexivity | intros g k _ H; discriminate H]].
  rewrite test_connection_eq.
  destruct (connector w (connect_args_of g1 k)) as [conn|e] eqn:Ec; cbn [fst snd];
    [|split; [connect_calls; reflexivity
             |intros g k' [= <-] [= <-]; rewrite Ec; reflexivity]].
  split; [|intros g k' [= <-] [= <-]; rewrite Ec; reflexivity].
  pose proof (no_connect_filter _ _ in_session_no_connect
                (test_basic_queries_in_session w conn)) as H4.
  unfold events in H4.
  destruct (test_basic_queries_returns w conn) as [oc [t4 E4]].
  rewrite E4 in *. cbn [fst snd] in *.
  destruct oc as [cur|]; [|connect_calls; reflexivity].
  pose proof (no_connect_filter _ _ in_session_no_connect
                (emits_weaken _ _ _ querying_in_session
                   (test_monitoring_access_querying w cur))) as H5.
  pose proof (no_connect_filter _ _ in_session_no_connect
                (emits_weaken _ _ _ querying_in_session
                   (test_datadog_requirements_querying w cur))) as H6.
  unfold events in H5, H6.
  destruct (test_monitoring_access_returns w cur) as [m [t5 E5]].
  destruct (test_datadog_requirements_returns w cur) as [r [t6 E6]].
  rewrite E5, E6 in *. cbn [fst snd] in *.
  connect_calls. destruct (m && r); reflexivity.
Qed.

Lemma connector_called_at_most_once_witness :
  stage_connection Sample.good = Some Connection.
Proof.
  exact (proj2 (connector_called_at_most_once Sample.good)
           Sample.config (PrivateKey 1) eq_refl eq_refl).
Defined.

(** ** The identity query *)

(** X4.  [test_basic_queries] returns a cursor exactly when the cursor opens
    and the identity query answers with a first row of at least four values.
    When the cursor does not open no statement is executed; an answer without
    rows fails on the missing row; and a first row of fewer than four values
    has its values printed under their labels before the call fails on the
    first missing one.  Every failure is caught and reported as
    "Basic queries failed". *)
Theorem identity_query_needs_four_values w conn :
  outcome (test_basic_queries w conn) = Ret (identity_cursor w)
  ∧ (∀ e, conn_cursor w = Raise e →
          events (test_basic_queries w conn)
          = [Print (nl +:+ "Testing basic queries..."); OpenCursor false;
             Print ("Basic queries failed: " +:+ exn_msg e)])
  ∧ (∀ cur e, conn_cursor w = Ret cur → server w sql_identity = Raise e →
          events (test_basic_queries w conn)
          = [Print (nl +:+ "Testing basic queries..."); OpenCursor true;
             Execute sql_identity;
             Print ("Basic queries failed: " +:+ exn_msg e)])
  ∧ (∀ cur, conn_cursor w = Ret cur → server w sql_identity = Ret [] →
          events (test_basic_queries w conn)
          = [Print (nl +:+ "Testing basic queries..."); OpenCursor true;
             Execute sql_identity;
             Print "Basic queries failed: 'NoneType' object is not subscriptable"])
  ∧ (∀ cur r more, conn_cursor w = Ret cur →
          server w sql_identity = Ret (r :: more) →
          events (test_basic_queries w conn)
          = [Print (nl +:+ "Testing basic queries..."); OpenCursor true;
             Execute sql_identity]
            ++ zip_with (λ label v, Print (label +:+ cell_str v)) identity_labels r
            ++ (if decide (length r < 4)
                then [Print "Basic queries failed: tuple index out of range"]
                else [])).
Proof.
  unfold test_basic_queries, open_cursor, execute, identity_cursor, outcome, events.
  destruct (conn_cursor w) as [cur|e];
    cbv [mbind M_bind bind emit mret M_ret ret print raise lift try_except];
    cbn [fst snd].
  - destruct (server w sql_identity) as [[|[|c0 [|c1 [|c2 [|c3 r]]]] more]|e];
      cbv [fetchone head item row_item lookup list_lookup mbind M_bind bind mret M_ret
           ret print emit raise exn_msg];
      cbn [fst snd];
      (split; [reflexivity|]); (split; [intros ? [=]|]);
      (split; [intros ? ? _ [=]; subst; reflexivity|]);
      (split; [intros ? _ [=]; reflexivity|]);
      intros ? ? ? _ [=]; subst; reflexivity.
  - split; [reflexivity|]. split; [intros ? [= <-]; reflexivity|].
    split; [intros ? ? [=]|]. split; [intros ? [=]|]. intros ? ? ? [=].
Qed.

Lemma identity_query_needs_four_values_witness :
  events (test_basic_queries
            (Sample.with_server (λ _, Ret [[Sample.txt "8.1"; Sample.txt "DATADOG"]]))
            Connection)
  = [Print (nl +:+ "Testing basic queries..."); OpenCursor true; Execute sql_identity;
     Print "Snowflake Version: 8.1"; Print "Current User: DATADOG";
     Print "Basic queries failed: tuple index out of range"].
Proof.
  exact (proj2 (proj2 (proj2 (proj2
           (identity_query_needs_four_values
              (Sample.with_server (λ _, Ret [[Sample.txt "8.1"; Sample.txt "DATADOG"]]))
              Connection))))
           Cursor [Sample.txt "8.1"; Sample.txt "DATADOG"] [] eq_refl eq_refl).
Defined.

(** ** The requirements flag *)

Lemma probe_passes_iff w t :
  probe_passes w t = true
  ↔ ∃ c0 v rest more, server w (query t) = Ret ((c0 :: v :: rest) :: more).
Proof.
  unfold probe_passes. split.
  - destruct (server w (query t)) as [[|[|c0 [|v r]] rows]|e]; try discriminate.
    intros _. eauto.
  - intros (c0 & v & rest & more & ->). reflexivity.
Qed.

(** X5.  The requirements flag is true exactly when every probe is answered
    with a first row of at least two values, whatever the count in the
    second one (a count of zero passes); a probe answered without rows or
    with a single value fails like one that raises.  The five probes are
    always executed, in the order of the list, whatever their answers. *)
Theorem requirements_flag_iff_every_probe_answers w cur :
  (outcome (test_datadog_requirements w cur) = Ret true
   ↔ ∀ t, t ∈ requirements_tests →
          ∃ c0 v rest more, server w (query t) = Ret ((c0 :: v :: rest) :: more))
  ∧ (outcome (test_datadog_requirements w cur) = Ret true
     ∨ outcome (test_datadog_requirements w cur) = Ret false)
  ∧ statements (events (test_datadog_requirements w cur))
    = map query requirements_tests.
Proof.
  rewrite test_datadog_requirements_eq. unfold outcome, events. cbn [fst snd].
  split; [|split].
  - split.
    + intros H t Ht. apply probe_passes_iff.
      pose proof (f_equal (λ r, match r with Ret b => b | Raise _ => true end) H)
        as Hall.
      exact (proj1 (forallb_forall _ _) Hall t (proj1 (list_elem_of_In _ _) Ht)).
    + intros H. f_equal. apply forallb_forall. intros t Ht.
      apply probe_passes_iff, H, list_elem_of_In, Ht.
  - destruct (forallb (probe_passes w) requirements_tests); auto.
  - reflexivity.
Qed.

Lemma requirements_flag_iff_every_probe_answers_witness :
  outcome (test_datadog_requirements
             (Sample.with_server (λ _, Ret [[Sample.txt "T"; Sample.num "0" "0.00"]]))
             Cursor) = Ret true.
Proof.
  apply (proj1 (requirements_flag_iff_every_probe_answers
                  (Sample.with_server (λ _, Ret [[Sample.txt "T"; Sample.num "0" "0.00"]]))
                  Cursor)).
  intros t _. exists (Sample.txt "T"), (Sample.num "0" "0.00"), [], []. reflexivity.
Defined.

(** ** The monitoring flag *)

Section MonitoringFlag.

Variable w : world.
Variable c : cursor.

Lemma succeeds_print {A} line (k : M A) : succeeds (print line ≫= λ _, k) = succeeds k.
Proof. unfold succeeds, outcome. run_monad. destruct k as [[a|e] t]; reflexivity. Qed.

Lemma succeeds_then {A B} (m : M A) (k : M B) :
  succeeds (m ≫= λ _, k) = succeeds m && succeeds k.
Proof.
  unfold succeeds, outcome. run_monad.
  destruct m as [[a|e] t]; [|reflexivity]. destruct k as [[b|e] t']; reflexivity.
Qed.

Lemma succeeds_execute {A} sql (k : list row → M A) :
  succeeds (execute w c sql ≫= k)
  = match server w sql with
    | Ret rows => succeeds (k rows)
    | Raise _ => false
    end.
Proof.
  unfold succeeds, outcome, execute. run_monad.
  destruct (server w sql) as [rows|e]; [|reflexivity].
  cbn. destruct (k rows) as [[a|e] t]; reflexivity.
Qed.

Lemma succeeds_for_each {A} (ok : A → bool) (l : list A) body :
  (∀ x, succeeds (body x) = ok x) → succeeds (for_each l body) = forallb ok l.
Proof.
  intros H. induction l as [|x l IH]; [reflexivity|].
  cbn [for_each forallb]. rewrite succeeds_then, H, IH. reflexivity.
Qed.

(** [try: ...; return True  except: ...; return False] *)
Lemma try_flag (body : M bool) (h : exn → M bool) :
  (∀ a, outcome body = Ret a → a = true) →
  (∀ e, outcome (h e) = Ret false) →
  outcome (try_except body h) = Ret (succeeds body).
Proof.
  unfold succeeds, outcome, try_except. intros Hb Hh.
  destruct body as [[a|e] t]; cbn [fst] in *.
  - rewrite (Hb a eq_refl). reflexivity.
  - specialize (Hh e). destruct (h e) as [r t']. exact Hh.
Qed.

Lemma succeeds_bind_ret {A B} (m : M A) (f : A → M B) a :
  outcome m = Ret a → succeeds (m ≫= f) = succeeds (f a).
Proof.
  unfold succeeds, outcome. run_monad. destruct m as [[a'|e] t]; [|discriminate].
  cbn. intros [= ->]. destruct (f a) as [[b|e] t']; reflexivity.
Qed.

Lemma outcome_bind_ret {A B} (m : M A) (f : A → M B) b :
  outcome (m ≫= f) = Ret b → ∃ a, outcome m = Ret a ∧ outcome (f a) = Ret b.
Proof.
  unfold outcome. run_monad. destruct m as [[a|e] t]; [|discriminate].
  destruct (f a) as [r t'] eqn:E. cbn. intros ->. exists a. rewrite E. auto.
Qed.

End MonitoringFlag.

Ltac row_prints :=
  unfold succeeds, outcome, row_item, format_2f, name_number_count,
    date_three_numbers, type_count_two_numbers, formats, lift;
  cbv [mbind M_bind bind mret M_ret ret raise print emit lookup list_lookup];
  repeat match goal with
         | |- context [cell_2f ?x] => destruct (cell_2f x)
         end;
  reflexivity.

(** X6.  The monitoring flag is true exactly when the query-history count
    is answered with a first row holding a value and each of the four
    listings is answered with rows that all print: three values with a number
    second for the warehouse-load and credit listings, four values with
    numbers in the last three places for the storage listing, four values
    with numbers in the last two places for the query-type listing.  A
    listing without rows passes; a single row with a missing value or with a
    value that is no number (a NULL average, say) fails the whole group. *)
Theorem monitoring_flag_iff_every_row_prints w c :
  outcome (test_monitoring_access w c) = Ret (monitoring_passes w)
  ∧ (∀ count rest more,
        server w sql_query_history = Ret ((count :: rest) :: more) →
        server w sql_warehouse_load = Ret [] →
        server w sql_storage = Ret [] →
        server w sql_credits = Ret [] →
        server w sql_query_perf = Ret [] →
        test_monitoring_access w c
        = (Ret true,
           [Print (nl +:+ "Testing monitoring access (Account Usage views)...");
            Print "Testing query history access...";
            Execute sql_query_history;
            Print ("Queries in last 24h: " +:+ cell_str count);
            Print "Testing warehouse performance metrics...";
            Execute sql_warehouse_load;
            Print " No warehouse performance data (may need time to accumulate)";
            Print "Testing storage metrics...";
            Execute sql_storage;
            Print "Testing warehouse credit usage...";
            Execute sql_credits;
            Print "Testing query execution metrics...";
            Execute sql_query_perf])).
Proof.
  split.
  - unfold test_monitoring_access. rewrite try_flag.
    + f_equal. unfold monitoring_passes, fetchall.
      rewrite !succeeds_print, succeeds_execute.
      destruct (server w sql_query_history) as [[|[|c0 r] more]|e]; try reflexivity.
      rewrite (succeeds_bind_ret _ _ c0) by reflexivity. rewrite !succeeds_print, succeeds_execute.
      destruct (server w sql_warehouse_load) as [rows2|e]; [|reflexivity].
      cbn [listing_prints andb]. rewrite succeeds_then. f_equal.
      { destruct rows2 as [|r0 rs]; [reflexivity|].
        rewrite succeeds_print. apply succeeds_for_each.
        intros [|x0 [|x1 [|x2 xs]]]; row_prints. }
      rewrite !succeeds_print, succeeds_execute.
      destruct (server w sql_storage) as [rows3|e]; [|reflexivity].
      cbn [listing_prints]. rewrite succeeds_then. f_equal.
      { destruct rows3 as [|r0 rs]; [reflexivity|].
        rewrite succeeds_print. apply succeeds_for_each.
        intros [|x0 [|x1 [|x2 [|x3 xs]]]]; row_prints. }
      rewrite !succeeds_print, succeeds_execute.
      destruct (server w sql_credits) as [rows4|e]; [|reflexivity].
      cbn [listing_prints]. rewrite succeeds_then. f_equal.
      { destruct rows4 as [|r0 rs]; [reflexivity|].
        rewrite succeeds_print. apply succeeds_for_each.
        intros [|x0 [|x1 [|x2 xs]]]; row_prints. }
      rewrite !succeeds_print, succeeds_execute.
      destruct (server w sql_query_perf) as [rows5|e]; [|reflexivity].
      cbn [listing_prints]. rewrite succeeds_then, andb_true_r.
      destruct rows5 as [|r0 rs]; [reflexivity|].
      rewrite succeeds_print. apply succeeds_for_each.
      intros [|x0 [|x1 [|x2 [|x3 xs]]]]; row_prints.
    + intros a H.
      repeat (cbv beta zeta in H; apply outcome_bind_ret in H as [? [_ H]]).
      injection H as <-. reflexivity.
    + intros e. reflexivity.
  - intros count rest more H1 H2 H3 H4 H5.
    unfold test_monitoring_access, execute. rewrite H1, H2, H3, H4, H5. reflexivity.
Qed.

Lemma monitoring_flag_iff_every_row_prints_witness :
  outcome (test_monitoring_access
             (Sample.with_server
                (λ sql, if String.eqb sql sql_query_history
                        then Ret [[Sample.num "12" "12.00"]] else Ret []))
             Cursor) = Ret true.
Proof.
  exact (f_equal fst
           (proj2 (monitoring_flag_iff_every_row_prints
                     (Sample.with_server
                        (λ sql, if String.eqb sql sql_query_history
                                then Ret [[Sample.num "12" "12.00"]] else Ret []))
                     Cursor)
              (Sample.num "12" "12.00") [] [] eq_refl eq_refl eq_refl eq_refl eq_refl)).
Defined.

(** ** Answers to the prompts *)

Lemma all_space_app a b : all_space (a +:+ b) = all_space a && all_space b.
Proof.
  induction a as [|ch a IH]; [reflexivity|].
  rewrite app_cons. simpl. rewrite IH, andb_assoc. reflexivity.
Qed.

Lemma truthy_strip s : Py.truthy (Py.strip s) = negb (all_space s).
Proof.
  destruct (all_space s) eqn:E.
  - rewrite (all_space_strip _ E). reflexivity.
  - destruct (Py.strip s) eqn:Es; [|reflexivity]. exfalso.
    destruct (strip_spec s) as [a [b [Hs [Ha Hb]]]].
    rewrite Es, app_nil in Hs. rewrite Hs, all_space_app, Ha, Hb in E.
    discriminate E.
Qed.

Lemma keep_or_set_strip old answer :
  keep_or_set old (Py.strip answer)
  = if all_space answer then old else Some (Py.strip answer).
Proof.
  unfold keep_or_set. rewrite truthy_strip. destruct (all_space answer); reflexivity.
Qed.

(** X7.  When the resolver prompts, it reads exactly four lines; an answer
    that is empty or white space keeps the value the environment gave, any
    other answer replaces it (stripped), also a value that the environment
    did provide; database, key path and password are never changed; and the
    call succeeds exactly when the resulting four fields pass the check for
    empty values and placeholders. *)
Theorem answers_keep_or_replace g a u r wh rest :
  env_loaded g = false →
  let g' := answered g a u r wh in
  outcome (get_configuration g (a :: u :: r :: wh :: rest))
  = Ret (config_valid g', g', rest)
  ∧ SNOWFLAKE_ACCOUNT g'
    = (if all_space a then SNOWFLAKE_ACCOUNT g else Some (Py.strip a))
  ∧ SNOWFLAKE_USER g'
    = (if all_space u then SNOWFLAKE_USER g else Some (Py.strip u))
  ∧ SNOWFLAKE_ROLE g'
    = (if all_space r then SNOWFLAKE_ROLE g else Some (Py.strip r))
  ∧ SNOWFLAKE_WAREHOUSE g'
    = (if all_space wh then SNOWFLAKE_WAREHOUSE g else Some (Py.strip wh))
  ∧ SNOWFLAKE_DATABASE g' = SNOWFLAKE_DATABASE g
  ∧ PRIVATE_KEY_PATH g' = PRIVATE_KEY_PATH g
  ∧ PRIVATE_KEY_PASSWORD g' = PRIVATE_KEY_PASSWORD g.
Proof.
  intros E g'. subst g'. split.
  - rewrite (get_configuration_prompted _ _ _ _ _ _ E). cbv zeta.
    destruct (missing_fields (answered g a u r wh)) eqn:Em; unfold outcome; cbn [fst].
    + apply missing_fields_nil in Em. rewrite Em. reflexivity.
    + destruct (config_valid (answered g a u r wh)) eqn:Ev; [|reflexivity].
      apply missing_fields_nil in Ev. rewrite Ev in Em. discriminate Em.
  - unfold answered, assign_answers. cbn [SNOWFLAKE_ACCOUNT SNOWFLAKE_USER
      SNOWFLAKE_ROLE SNOWFLAKE_WAREHOUSE SNOWFLAKE_DATABASE PRIVATE_KEY_PATH
      PRIVATE_KEY_PASSWORD].
    rewrite !keep_or_set_strip. repeat split.
Qed.

Lemma answers_keep_or_replace_witness :
  outcome (get_configuration partial_config
             ["  "; " datadog "; "DATADOG_ROLE"; "COMPUTE_WH"])
  = Ret (true, answered partial_config "  " " datadog " "DATADOG_ROLE" "COMPUTE_WH", [])
  ∧ SNOWFLAKE_ACCOUNT (answered partial_config "  " " datadog " "DATADOG_ROLE" "COMPUTE_WH")
    = Some "abc123.snowflakecomputing.com"
  ∧ SNOWFLAKE_USER (answered partial_config "  " " datadog " "DATADOG_ROLE" "COMPUTE_WH")
    = Some "datadog".
Proof.
  pose proof (answers_keep_or_replace partial_config
                "  " " datadog " "DATADOG_ROLE" "COMPUTE_WH" [] eq_refl) as H.
  split; [exact (proj1 H)|]. split.
  - exact (proj1 (proj2 H)).
  - exact (proj1 (proj2 (proj2 H))).
Defined.

(** ** Prompts and the end of standard input *)

Lemma no_prompt_shown t : forallb no_prompt t = true → prompts_shown t = [].
Proof.
  induction t as [|ev t IH]; [reflexivity|]. simpl.
  intros [Hev Ht]%andb_true_iff. unfold prompts_shown in *. cbn [omap list_omap].
  destruct ev; try discriminate Hev; exact (IH Ht).
Qed.

Lemma prompts_shown_app t1 t2 :
  prompts_shown (t1 ++ t2) = prompts_shown t1 ++ prompts_shown t2.
Proof. apply omap_app. Qed.

Lemma querying_no_prompt ev : querying ev = true → no_prompt ev = true.
Proof. destruct ev; simpl; congruence. Qed.

Lemma get_configuration_prompts g stdin :
  prompts_shown (events (get_configuration g stdin))
  = if env_loaded g then [] else take (S (length stdin)) four_prompts.
Proof.
  unfold get_configuration, events. destruct (env_loaded g); [reflexivity|].
  destruct (Py.truthy_opt (SNOWFLAKE_ACCOUNT g));
    destruct stdin as [|a [|u [|r [|wh rest]]]]; try reflexivity;
    cbv [mbind M_bind bind input emit mret M_ret ret print raise print_config];
    destruct (missing_fields _); reflexivity.
Qed.

Lemma get_configuration_end_of_input g stdin :
  env_loaded g = false → length stdin < 4 →
  outcome (get_configuration g stdin) = Raise end_of_input.
Proof.
  intros E Hlen. unfold get_configuration, outcome. rewrite E.
  destruct (Py.truthy_opt (SNOWFLAKE_ACCOUNT g));
    (destruct stdin as [|a [|u [|r [|wh rest]]]];
     [reflexivity ..|simpl in Hlen; lia]).
Qed.

Lemma load_private_key_no_prompt w g : emits no_prompt (load_private_key w g).
Proof.
  destruct (fs w (PRIVATE_KEY_PATH g)) as [[data|size n m]|] eqn:E.
  - rewrite (load_private_key_readable _ _ _ E). unfold emits, events, key_attempt.
    cbn [snd]. rewrite forallb_app.
    destruct (load_der_private_key w data (PRIVATE_KEY_PASSWORD g));
      destruct (decoded w g data) as [?|? msg|?]; try reflexivity;
      cbn [key_report]; destruct (Py.contains "password" (Py.lower msg)); reflexivity.
  - rewrite (load_private_key_unreadable _ _ _ _ _ E). reflexivity.
  - rewrite (load_private_key_absent _ _ E). reflexivity.
Qed.

Lemma test_basic_queries_no_prompt w conn : emits no_prompt (test_basic_queries w conn).
Proof.
  unfold test_basic_queries, open_cursor, execute, item, row_item.
  solve_emits.
Qed.

(** X8.  The resolver is the only part of the run that prompts.  A run
    that ends while [.env] is read asks nothing.  Once the loader has
    returned: when the environment it leaves gives all four fields nothing is
    asked; otherwise the four prompts are shown in the order account, user,
    role, warehouse, as far as standard input lasts: with fewer than four
    lines the prompt after the last line is still shown, [input] then raises
    [EOFError], nobody catches it, and the run ends with status 1. *)
Theorem prompts_follow_standard_input w :
  prompts_shown (events (script w))
  = match stage_environ w with
    | Some environ =>
        if env_loaded (module_config environ) then []
        else take (S (length (stdin w))) four_prompts
    | None => []
    end
  ∧ (∀ environ,
        stage_environ w = Some environ →
        env_loaded (module_config environ) = false → length (stdin w) < 4 →
        outcome (script w) = Raise end_of_input ∧ exit_status w = 1%Z).
Proof.
  split.
  - destruct (script_cases w) as [[Hi [e0 He]]|[Hi He]]; rewrite Hi, He;
      [reflexivity|].
    change (module_config (startup_environ w)) with (startup_config w).
    unfold events. rewrite main_eq.
    assert (prompts_shown (startup_events w) = []) as Hs
      by (destruct (startup_events_cases w) as [-> | [-> | ->]]; reflexivity).
    pose proof (get_configuration_prompts (startup_config w) (stdin w)) as H1.
    unfold events in H1.
    destruct (get_configuration (startup_config w) (stdin w))
      as [[[[[|] g1] rest]|e] t1]; cbn [fst snd] in *.
    2, 3: rewrite !prompts_shown_app, Hs, H1;
          change (prompts_shown (banner w)) with (@nil string);
          rewrite ?app_nil_r; reflexivity.
    pose proof (no_prompt_shown _ (load_private_key_no_prompt w g1)) as H2.
    unfold events in H2.
    destruct (load_private_key_returns w g1) as [ko [t2 E2]].
    rewrite E2 in *. cbn [fst snd] in *.
    assert (∀ t, prompts_shown t = [] →
                 prompts_shown (startup_events w ++ (banner w ++ t1 ++ Print "" :: t2 ++ t)
                                ++ [Print (nl +:+ "Test completed at: " +:+ completed_at w)])
                 = if env_loaded (startup_config w) then []
                   else take (S (length (stdin w))) four_prompts) as Hrest.
    { intros t Ht. rewrite !prompts_shown_app, Hs, H1.
      change (prompts_shown (banner w)) with (@nil string).
      change (Print "" :: t2 ++ t) with ([Print ""] ++ t2 ++ t).
      rewrite !prompts_shown_app, H2, Ht.
      change (prompts_shown [Print ""]) with (@nil string).
      change (prompts_shown [Print (nl +:+ "Test completed at: " +:+ completed_at w)])
        with (@nil string).
      rewrite ?app_nil_r. reflexivity. }
    destruct ko as [k|]; [|apply Hrest; reflexivity].
    pose proof (test_connection_eq w g1 k) as E3.
    assert (prompts_shown (test_connection w g1 k).2 = []) as H3
      by (rewrite E3; destruct (connector w (connect_args_of g1 k)); reflexivity).
    destruct (test_connection w g1 k) as [[[conn|]|e] t3]; cbn [fst snd] in *.
    2, 3: try (apply Hrest; rewrite prompts_shown_app, H3; reflexivity).
    2: { destruct (connector w (connect_args_of g1 k)); discriminate E3. }
    pose proof (no_prompt_shown _ (test_basic_queries_no_prompt w conn)) as H4.
    unfold events in H4.
    destruct (test_basic_queries_returns w conn) as [oc [t4 E4]].
    rewrite E4 in *. cbn [fst snd] in *.
    destruct oc as [cur|];
      [|apply Hrest; rewrite !prompts_shown_app, H3, H4; reflexivity].
    pose proof (no_prompt_shown _
                  (emits_weaken _ _ _ querying_no_prompt
                     (test_monitoring_access_querying w cur))) as H5.
    pose proof (no_prompt_shown _
                  (emits_weaken _ _ _ querying_no_prompt
                     (test_datadog_requirements_querying w cur))) as H6.
    unfold events in H5, H6.
    destruct (test_monitoring_access_returns w cur) as [m [t5 E5]].
    destruct (test_datadog_requirements_returns w cur) as [r [t6 E6]].
    rewrite E5, E6 in *. cbn [fst snd] in *.
    apply Hrest. rewrite !prompts_shown_app, H3, H4, H5, H6.
    destruct (m && r); reflexivity.
  - intros environ Henv E Hlen.
    destruct (script_cases w) as [[Hi _]|[Hi He]]; rewrite Hi in Henv;
      [discriminate Henv|].
    injection Henv as <-.
    change (module_config (startup_environ w)) with (startup_config w) in E.
    pose proof (get_configuration_end_of_input _ _ E Hlen) as H.
    unfold exit_status, outcome in *. rewrite He, main_eq.
    destruct (get_configuration (startup_config w) (stdin w)) as [[[[ok g1] rest]|e] t1];
      cbn [fst] in H; [discriminate H|].
    injection H as ->. split; reflexivity.
Qed.

Lemma prompts_follow_standard_input_witness :
  outcome (script (World None ∅ ["abc123.snowflakecomputing.com"; "DATADOG"]
                     (fs Sample.good) (load_der_private_key Sample.good)
                     (load_pem_private_key Sample.good) (connector Sample.good)
                     (conn_cursor Sample.good) (server Sample.good) "" ""))
  = Raise end_of_input
  ∧ exit_status (World None ∅ ["abc123.snowflakecomputing.com"; "DATADOG"]
                   (fs Sample.good) (load_der_private_key Sample.good)
                   (load_pem_private_key Sample.good) (connector Sample.good)
                   (conn_cursor Sample.good) (server Sample.good) "" "") = 1%Z.
Proof.
  apply (proj2 (prompts_follow_standard_input
                  (World None ∅ ["abc123.snowflakecomputing.com"; "DATADOG"]
                     (fs Sample.good) (load_der_private_key Sample.good)
                     (load_pem_private_key Sample.good) (connector Sample.good)
                     (conn_cursor Sample.good) (server Sample.good) "" ""))
               ∅).
  - reflexivity.
  - reflexivity.
  - simpl. lia.
Defined.

(** ** Where a setting comes from *)



(** ** Writing pairs and reading them back *)

Lemma sapp_assoc a b c : (a +:+ b) +:+ c = a +:+ b +:+ c.
Proof.
  induction a as [|ch a IH]; [reflexivity|]. rewrite !app_cons, IH. reflexivity.
Qed.

Lemma no_newline_app a b : no_newline (a +:+ b) = no_newline a && no_newline b.
Proof.
  induction a as [|ch a IH]; [reflexivity|].
  rewrite app_cons. cbn [no_newline]. rewrite IH, andb_assoc. reflexivity.
Qed.

Lemma readlines_from_line s : ∀ cur rest,
  no_newline s = true →
  Py.readlines_from cur (s +:+ String Py.LF rest)
  = (cur +:+ s +:+ nl) :: Py.readlines_from EmptyString rest.
Proof.
  induction s as [|ch s IH]; intros cur rest H.
  - rewrite !app_nil. reflexivity.
  - cbn [no_newline] in H. apply andb_true_iff in H as [H Hs].
    apply andb_true_iff in H as [H1 H2].
    apply negb_true_iff in H1. apply negb_true_iff in H2.
    rewrite app_cons. cbn [Py.readlines_from]. rewrite H1, H2, (IH _ _ Hs).
    rewrite sapp_assoc, app_cons, app_nil. reflexivity.
Qed.

Lemma all_space_rstrip b : all_space b = true → Py.rstrip b = EmptyString.
Proof.
  induction b as [|ch b IH]; [reflexivity|]. simpl.
  intros [Hc Hb]%andb_true_iff. rewrite (IH Hb), Hc. reflexivity.
Qed.

Lemma rstrip_app_space a b : all_space b = true → Py.rstrip (a +:+ b) = Py.rstrip a.
Proof.
  intros Hb. induction a as [|ch a IH].
  - rewrite app_nil. apply all_space_rstrip, Hb.
  - rewrite app_cons. cbn [Py.rstrip]. rewrite IH. reflexivity.
Qed.

Lemma head_kept_app a b : a ≠ EmptyString → head_kept a → head_kept (a +:+ b).
Proof. destruct a as [|ch a]; [congruence|]. intros _ H. exact H. Qed.

Lemma last_kept_app a b : b ≠ EmptyString → last_kept b → last_kept (a +:+ b).
Proof.
  intros Hb H. induction a as [|ch a IH]; [exact H|].
  rewrite app_cons. cbn [last_kept].
  destruct (a +:+ b) eqn:E; [|exact IH].
  destruct a; [rewrite app_nil in E; congruence | rewrite app_cons in E; discriminate E].
Qed.

Lemma strip_line s :
  s ≠ EmptyString → head_kept s → last_kept s → Py.strip (s +:+ nl) = s.
Proof.
  intros Hs Hh Hl. unfold Py.strip.
  rewrite (head_kept_lstrip _ (head_kept_app _ nl Hs Hh)).
  rewrite rstrip_app_space by reflexivity. apply last_kept_rstrip, Hl.
Qed.

Lemma env_pair_render p : writable p → env_pair (render_pair p) = Some p.
Proof.
  destruct p as [k v]. unfold writable, render_pair. cbn [fst snd].
  intros (Hk & Hsk & Hsv & Heq & Hhash & _ & _ & _ & _).
  assert (head_kept k) as Hhk by (rewrite <- Hsk; apply strip_head_kept).
  assert (last_kept v) as Hlv by (rewrite <- Hsv; apply strip_last_kept).
  assert (Py.strip ((k +:+ "=" +:+ v) +:+ nl) = k +:+ String "=" v) as Hline.
  { apply strip_line.
    - destruct k; [congruence | discriminate].
    - apply head_kept_app; assumption.
    - apply last_kept_app; [discriminate|].
      destruct v as [|ch v]; [reflexivity|].
      apply (last_kept_app (String "=" EmptyString)); [discriminate | exact Hlv]. }
  replace (k +:+ "=" +:+ v +:+ nl) with ((k +:+ "=" +:+ v) +:+ nl)
    by (rewrite !sapp_assoc; reflexivity).
  rewrite (env_pair_accept _ k v Hline Heq).
  - rewrite Hsk, Hsv. reflexivity.
  - rewrite Hline. destruct k; [congruence | exact Hhash].
Qed.

Lemma readlines_render pairs :
  Forall writable pairs → Py.readlines (render pairs) = map render_pair pairs.
Proof.
  unfold Py.readlines. induction 1 as [|[k v] pairs Hp _ IH]; [reflexivity|].
  cbn [render map]. unfold render_pair at 1. cbn [fst snd].
  destruct Hp as (_ & _ & _ & _ & _ & Hnk & Hnv & _ & _). cbn [fst snd] in *.
  replace ((k +:+ "=" +:+ v +:+ nl) +:+ render pairs)
    with ((k +:+ "=" +:+ v) +:+ String Py.LF (render pairs))
    by (rewrite !sapp_assoc; reflexivity).
  rewrite readlines_from_line, IH.
  - rewrite app_nil. unfold render_pair. cbn [fst snd]. rewrite !sapp_assoc.
    reflexivity.
  - rewrite !no_newline_app, Hnk, Hnv. reflexivity.
Qed.

Lemma omap_env_pair_render pairs :
  Forall writable pairs → omap env_pair (map render_pair pairs) = pairs.
Proof.
  induction 1 as [|p pairs Hp _ IH]; [reflexivity|].
  cbn [map omap list_omap]. rewrite (env_pair_render _ Hp).
  fold (omap env_pair (map render_pair pairs)). rewrite IH. reflexivity.
Qed.

Lemma writable_assignable pairs :
  Forall writable pairs → forallb assignable pairs = true.
Proof.
  induction 1 as [|[k v] pairs Hp _ IH]; [reflexivity|].
  cbn [forallb]. rewrite IH, andb_true_r.
  destruct Hp as (Hk & _ & _ & _ & _ & _ & _ & Hnk & Hnv). cbn [fst snd] in *.
  unfold assignable. cbn [fst snd]. rewrite Hnk, Hnv.
  destruct k; [congruence | reflexivity].
Qed.

(** X10.  Pairs written to [.env] one per line as KEY=VALUE are read back
    as they were written: the loader sets exactly these pairs, in the order
    of the lines, so that a name ends with the value of the last line that
    names it.  This holds for names that are not empty, have no [=] and do
    not begin with [#], when neither name nor value has white space around
    it, a line end or a NUL character in it. *)
Theorem written_pairs_are_read_back pairs environ :
  Forall writable pairs →
  load_env_file (Some (render pairs)) environ
  = (Ret (foldl set_pair environ pairs),
     [Print "Loading environment variables from .env";
      Print "Environment variables loaded"])
  ∧ ∀ name,
      foldl set_pair environ pairs !! name
      = match last_value name pairs with
        | Some v => Some v
        | None => environ !! name
        end.
Proof.
  intros H. split; [|intros name; apply foldl_set_pair_lookup].
  rewrite load_env_file_text. unfold env_pairs.
  rewrite (readlines_render _ H), (omap_env_pair_render _ H).
  rewrite (first_refused_none _ (writable_assignable _ H)). reflexivity.
Qed.

Lemma written_pairs_are_read_back_witness :
  load_env_file
    (Some (render [("SNOWFLAKE_USER", "DATADOG"); ("PRIVATE_KEY_PATH", "keys/rsa key.p8");
                   ("SNOWFLAKE_USER", "SVC=1")]))
    (<["SNOWFLAKE_USER" := "OLD"]> ∅)
  = (Ret (<["SNOWFLAKE_USER" := "SVC=1"]>
            (<["PRIVATE_KEY_PATH" := "keys/rsa key.p8"]>
               (<["SNOWFLAKE_USER" := "DATADOG"]> (<["SNOWFLAKE_USER" := "OLD"]> ∅)))),
     [Print "Loading environment variables from .env";
      Print "Environment variables loaded"]).
Proof.
  refine (proj1 (written_pairs_are_read_back
                   [("SNOWFLAKE_USER", "DATADOG"); ("PRIVATE_KEY_PATH", "keys/rsa key.p8");
                    ("SNOWFLAKE_USER", "SVC=1")]
                   (<["SNOWFLAKE_USER" := "OLD"]> ∅) _)).
  repeat constructor; discriminate.
Defined.

(** ** A line the environment refuses *)

(** X11.  A pair of [.env] that the environment refuses ends the run while
    the module is loaded: the pairs before it have been set, the assignment
    raises ([ValueError] for a NUL character in the name or the value,
    [OSError] for the empty name), nothing catches it, and the run ends with
    status 1 after the first line of the loader, before [main] is reached:
    no configuration is resolved. *)
Theorem refused_pair_ends_the_run w text taken p rest :
  dot_env w = Some text →
  env_pairs text = taken ++ p :: rest →
  forallb assignable taken = true →
  assignable p = false →
  script w
  = (Raise (if Py.contains nul p.1 || Py.contains nul p.2
            then Exn ValueError "ValueError" "embedded null byte"
            else Exn OtherError "OSError" "[Errno 22] Invalid argument"),
     [Print "Loading environment variables from .env"])
  ∧ exit_status w = 1%Z
  ∧ stage_config w = None.
Proof.
  intros Hd Hp Ht Hr.
  assert (load_env_file (dot_env w) (environ0 w)
          = (Raise (refusal p), [Print "Loading environment variables from .env"]))
    as Hl.
  { rewrite Hd, load_env_file_text, Hp, (first_refused_some _ _ _ Ht Hr).
    reflexivity. }
  assert (script w
          = (Raise (refusal p), [Print "Loading environment variables from .env"]))
    as Hs by (unfold script; rewrite Hl; reflexivity).
  split; [exact Hs|]. split.
  - unfold exit_status. rewrite Hs. reflexivity.
  - unfold stage_config, stage_environ. rewrite Hl. reflexivity.
Qed.

Lemma refused_pair_ends_the_run_witness :
  script Sample.empty_name
  = (Raise (Exn OtherError "OSError" "[Errno 22] Invalid argument"),
     [Print "Loading environment variables from .env"])
  ∧ exit_status Sample.empty_name = 1%Z
  ∧ stage_config Sample.empty_name = None.
Proof.
  apply (refused_pair_ends_the_run Sample.empty_name
           ("SNOWFLAKE_ROLE=R1" +:+ nl +:+ " = x" +:+ nl +:+ "SNOWFLAKE_USER=U")
           [("SNOWFLAKE_ROLE", "R1")] ("", "x") [("SNOWFLAKE_USER", "U")]);
    reflexivity.
Defined.
